(** * Attribute Configuration Assistant: the template pipeline of [sw.js]

    A shallow embedding of the class [AvevaAttributeConfig] of
    [src/sw.js]: the reference catalog and its search, the template form
    collector, the three export formats, the in-memory list of saved
    configurations, the validation score and the wizard step counter.

    Conventions of the model.
    - A JavaScript string is a sequence of UTF-16 code units.  Strings are
      taken over the code units below 256 (Rocq's [string]); on that range
      [toLowerCase] and [JSON.stringify]'s quoting are modelled exactly.
    - [undefined] is [None] of an [option]; a DOM element that is looked up
      and may be missing is an [option] of what the code reads from it.
    - Numbers the code handles are small integers (counters, lengths, clock
      readings in milliseconds); they are integers of [Z] or [N].
    - A method is a function from the application object to an [Outcome]:
      the value returned to the caller, the application object afterwards
      and the calls made to the notification, console, download and render
      boundaries, in order. *)

From Stdlib Require Import String Ascii List ZArith NArith Bool Lia.
From Stdlib Require Import DecimalString DecimalZ.
Import ListNotations.

Local Open Scope list_scope.
Local Open Scope string_scope.

(* ================================================================== *)
(** * Part I: the model *)
(* ================================================================== *)

(** ** Strings *)

Module Js.

(** [String.prototype.toLowerCase] on one code unit below 256: the letters
    A-Z and the Latin-1 capitals U+00C0-U+00DE (U+00D7, the multiplication
    sign, apart) move up by 32, every other unit is its own lower case. *)
Definition toLowerCaseUnit (c : ascii) : ascii :=
  let n := N_of_ascii c in
  if ((65 <=? n) && (n <=? 90) ||
      (192 <=? n) && (n <=? 214) ||
      (216 <=? n) && (n <=? 222))%N
  then ascii_of_N (n + 32)
  else c.

Fixpoint toLowerCase (s : string) : string :=
  match s with
  | EmptyString => EmptyString
  | String c s' => String (toLowerCaseUnit c) (toLowerCase s')
  end.

(** [s.startsWith(p)]. *)
Fixpoint startsWith (s p : string) {struct p} : bool :=
  match p, s with
  | EmptyString, _ => true
  | String _ _, EmptyString => false
  | String a p', String b s' => Ascii.eqb a b && startsWith s' p'
  end.

(** [s.includes(needle)]: [needle] occurs in [s] at some position. *)
Fixpoint includes (s needle : string) : bool :=
  startsWith s needle ||
  match s with
  | EmptyString => false
  | String _ s' => includes s' needle
  end.

(** Truthiness of a string: only the empty string is falsy. *)
Definition truthy (s : string) : bool :=
  match s with EmptyString => false | String _ _ => true end.

(** [v || d] for a string-or-undefined [v]. *)
Definition orElse (v : option string) (d : string) : string :=
  match v with
  | Some s => if truthy s then s else d
  | None => d
  end.

(** [s || d] for a string [s]. *)
Definition strOr (s d : string) : string := if truthy s then s else d.

(** [`${n}`] for an integer-valued number [n]. *)
Definition numberToString (n : Z) : string :=
  NilEmpty.string_of_int (Z.to_int n).

(** [`${v}`] for a string-or-undefined [v]. *)
Definition templateString (v : option string) : string :=
  match v with Some s => s | None => "undefined" end.

(** [parts.join(sep)]. *)
Fixpoint join (sep : string) (parts : list string) : string :=
  match parts with
  | [] => EmptyString
  | [p] => p
  | p :: rest => p ++ sep ++ join sep rest
  end.

(** [(len / 1024).toFixed(1)] for a length [len]: [len / 1024] is exact in
    a double, so the digits are those of the integer nearest to
    [10 * len / 1024], the larger one on a tie, with one digit after the
    point. *)
Definition kilobytesToFixed1 (len : N) : string :=
  let n := ((10 * len + 512) / 1024)%N in
  NilEmpty.string_of_uint (N.to_uint (n / 10)) ++ "." ++
  NilEmpty.string_of_uint (N.to_uint (n mod 10)).

End Js.

(** ** The reference catalog ([getReferenceDataByFilter]) *)

Record RefItem := mkRefItem {
  item_name : string;
  item_type : string;
  item_category : string;
  item_description : string
}.

Definition allData : list RefItem := [
  (* Analog I/O data *)
  mkRefItem "AI_INT" "analog" "Analog I/O" "Analog Input Integer - 16-bit signed integer for analog inputs";
  mkRefItem "AI_REAL" "analog" "Analog I/O" "Analog Input Real - 32-bit floating point for precision measurements";
  mkRefItem "AO_INT" "analog" "Analog I/O" "Analog Output Integer - 16-bit signed integer for analog outputs";
  mkRefItem "AO_REAL" "analog" "Analog I/O" "Analog Output Real - 32-bit floating point for precise control";
  mkRefItem "AI_LREAL" "analog" "Analog I/O" "Analog Input Long Real - 64-bit floating point for high precision";
  mkRefItem "AO_LREAL" "analog" "Analog I/O" "Analog Output Long Real - 64-bit floating point for precise control";
  (* Digital I/O data *)
  mkRefItem "DI" "digital" "Digital I/O" "Digital Input - Boolean input for on/off states";
  mkRefItem "DO" "digital" "Digital I/O" "Digital Output - Boolean output for control signals";
  mkRefItem "DI_WORD" "digital" "Digital I/O" "Digital Input Word - 16-bit digital input register";
  mkRefItem "DO_WORD" "digital" "Digital I/O" "Digital Output Word - 16-bit digital output register";
  mkRefItem "DI_DWORD" "digital" "Digital I/O" "Digital Input Double Word - 32-bit digital input register";
  mkRefItem "DO_DWORD" "digital" "Digital I/O" "Digital Output Double Word - 32-bit digital output register";
  (* String data *)
  mkRefItem "STRING" "string" "String" "String - Variable length character string";
  mkRefItem "STRING_80" "string" "String" "String 80 - Fixed 80 character string";
  mkRefItem "STRING_256" "string" "String" "String 256 - Fixed 256 character string";
  mkRefItem "WSTRING" "string" "String" "Wide String - Unicode string support";
  mkRefItem "STRING_REF" "string" "String" "String Reference - Pointer to string data";
  (* System data *)
  mkRefItem "TIME" "system" "System" "Time - System timestamp";
  mkRefItem "DATE" "system" "System" "Date - System date";
  mkRefItem "DT" "system" "System" "DateTime - Combined date and time";
  mkRefItem "TOD" "system" "System" "Time of Day - Time without date";
  mkRefItem "REAL" "system" "System" "Real - 32-bit floating point number";
  mkRefItem "LREAL" "system" "System" "Long Real - 64-bit floating point number";
  mkRefItem "INT" "system" "System" "Integer - 16-bit signed integer";
  mkRefItem "DINT" "system" "System" "Double Integer - 32-bit signed integer";
  mkRefItem "UDINT" "system" "System" "Unsigned Double Integer - 32-bit unsigned integer";
  mkRefItem "SINT" "system" "System" "Short Integer - 8-bit signed integer";
  mkRefItem "USINT" "system" "System" "Unsigned Short Integer - 8-bit unsigned integer";
  mkRefItem "BYTE" "system" "System" "Byte - 8-bit binary data";
  mkRefItem "WORD" "system" "System" "Word - 16-bit binary data";
  mkRefItem "DWORD" "system" "System" "Double Word - 32-bit binary data"
].

Definition getReferenceDataByFilter (filterType : string) : list RefItem :=
  if filterType =? "all" then allData
  else filter (fun item => item_type item =? filterType) allData.

(** The predicate of the search filter of [displayFilteredData]. *)
Definition matchesSearch (searchTerm : string) (item : RefItem) : bool :=
  Js.includes (Js.toLowerCase (item_name item)) (Js.toLowerCase searchTerm) ||
  Js.includes (Js.toLowerCase (item_description item)) (Js.toLowerCase searchTerm) ||
  Js.includes (Js.toLowerCase (item_category item)) (Js.toLowerCase searchTerm).

(** The local [filteredData] of [displayFilteredData]: the entries it
    renders, in order. *)
Definition filteredData (filterType searchTerm : string) : list RefItem :=
  let referenceData := getReferenceDataByFilter filterType in
  if Js.truthy searchTerm
  then filter (matchesSearch searchTerm) referenceData
  else referenceData.

(** ** The page, as far as the code reads it *)

(** One element of [querySelectorAll('.attribute-row')]: the [value] of its
    first [.attr-name], [.attr-type] and [.attr-description] descendants,
    [None] where the row has no such descendant ([?.value] is then
    [undefined]). *)
Record AttributeRow := mkRow {
  row_name : option string;
  row_type : option string;
  row_description : option string
}.

(** The document: the [value] of each element the code looks up by id
    ([None] when the element is missing), the attribute rows in document
    order, the [value] of the checked [exportFormat] radio button and
    whether [#referenceGrid] exists. *)
Record Document := mkDocument {
  templateName : option string;
  templateCategory : option string;
  templateDescription : option string;
  attributeRows : list AttributeRow;
  exportFormat : option string;
  referenceGrid : bool
}.

(** ** The form collector ([collectTemplateData]) *)

(** [{ name, type, description }] as pushed by [collectTemplateData]:
    [name] and [type] are truthy strings there, [description] is whatever
    the row gave, [undefined] included. *)
Record Attribute := mkAttribute {
  attr_name : string;
  attr_type : string;
  attr_description : option string
}.

(** [{ name, category, description, attributes }]. *)
Record TemplateData := mkTemplateData {
  td_name : string;
  td_category : string;
  td_description : string;
  td_attributes : list Attribute
}.

(** The body of the [forEach] over the rows: the attribute a row pushes,
    if it pushes one. *)
Definition collectRow (row : AttributeRow) : option Attribute :=
  match row_name row, row_type row with
  | Some name, Some type =>
      if Js.truthy name && Js.truthy type
      then Some (mkAttribute name type (row_description row))
      else None
  | _, _ => None
  end.

Fixpoint collectRows (rows : list AttributeRow) : list Attribute :=
  match rows with
  | [] => []
  | row :: rest =>
      match collectRow row with
      | Some a => a :: collectRows rest
      | None => collectRows rest
      end
  end.

Definition collectTemplateData (doc : Document) : TemplateData :=
  let name := Js.orElse (templateName doc) EmptyString in
  let category := Js.orElse (templateCategory doc) EmptyString in
  let description := Js.orElse (templateDescription doc) EmptyString in
  let attributes := collectRows (attributeRows doc) in
  mkTemplateData name category description attributes.

(** ** JSON text ([JSON.stringify], [JSON.parse]) *)

Module JSON.

(** The values [JSON.parse] yields, numbers apart (no number occurs in the
    data of this program).  An object holds its members in insertion
    order. *)
#[local] Unset Elimination Schemes.
Inductive value : Type :=
| Null : value
| Bool : bool -> value
| Str : string -> value
| Arr : list value -> value
| Obj : list (string * value) -> value.
#[local] Set Elimination Schemes.

Definition LF : ascii := "010"%char.
Definition DQUOTE : ascii := "034"%char.
Definition BACKSLASH : ascii := "092"%char.

Definition chr (c : ascii) : string := String c EmptyString.

(** One lower-case hexadecimal digit. *)
Definition hexDigit (n : N) : ascii :=
  if (n <? 10)%N then ascii_of_N (48 + n) else ascii_of_N (87 + n).

(** [UnicodeEscape]: a backslash, [u] and four hexadecimal digits. *)
Definition unicodeEscape (n : N) : string :=
  String BACKSLASH (String "u" (String (hexDigit (n / 4096))
    (String (hexDigit ((n / 256) mod 16))
      (String (hexDigit ((n / 16) mod 16))
        (String (hexDigit (n mod 16)) EmptyString))))).

(** What [QuoteJSONString] emits for one code unit. *)
Definition quoteUnit (c : ascii) : string :=
  let n := N_of_ascii c in
  if (n =? 8)%N then String BACKSLASH "b"
  else if (n =? 9)%N then String BACKSLASH "t"
  else if (n =? 10)%N then String BACKSLASH "n"
  else if (n =? 12)%N then String BACKSLASH "f"
  else if (n =? 13)%N then String BACKSLASH "r"
  else if (n =? 34)%N then String BACKSLASH (chr DQUOTE)
  else if (n =? 92)%N then String BACKSLASH (chr BACKSLASH)
  else if (n <? 32)%N then unicodeEscape n
  else chr c.

Fixpoint quoteUnits (s : string) : string :=
  match s with
  | EmptyString => EmptyString
  | String c s' => quoteUnit c ++ quoteUnits s'
  end.

Definition QuoteJSONString (s : string) : string :=
  chr DQUOTE ++ quoteUnits s ++ chr DQUOTE.

Definition isEmpty (s : string) : bool :=
  match s with EmptyString => true | String _ _ => false end.

(** The final text of [SerializeJSONObject] and [SerializeJSONArray] from
    the serialized members [partial], between [opening] and [closing]. *)
Definition wrap (gap stepback indent opening closing : string)
    (partial : list string) : string :=
  match partial with
  | [] => opening ++ closing
  | _ :: _ =>
      if isEmpty gap
      then opening ++ Js.join "," partial ++ closing
      else opening ++ chr LF ++ indent ++
           Js.join ("," ++ chr LF ++ indent) partial ++
           chr LF ++ stepback ++ closing
  end.

(** [SerializeJSONProperty] with the current indentation [indent] and the
    indentation unit [gap]. *)
Fixpoint serialize (gap indent : string) (v : value) : string :=
  match v with
  | Null => "null"
  | Bool true => "true"
  | Bool false => "false"
  | Str s => QuoteJSONString s
  | Arr elements =>
      wrap gap indent (indent ++ gap) "[" "]"
        (map (serialize gap (indent ++ gap)) elements)
  | Obj members =>
      wrap gap indent (indent ++ gap) "{" "}"
        (map (fun member =>
                QuoteJSONString (fst member) ++ ":" ++
                (if isEmpty gap then EmptyString else " ") ++
                serialize gap (indent ++ gap) (snd member))
             members)
  end.

(** The indentation unit for a numeric [space] argument: that many spaces,
    ten at most. *)
Fixpoint spaces (n : nat) : string :=
  match n with
  | O => EmptyString
  | S n' => String " " (spaces n')
  end.

(** [JSON.stringify(v, null, space)]. *)
Definition stringify (v : value) (space : nat) : string :=
  serialize (spaces (Nat.min space 10)) EmptyString v.

(** *** [JSON.parse] *)

Definition isWhiteSpace (c : ascii) : bool :=
  let n := N_of_ascii c in
  ((n =? 32) || (n =? 9) || (n =? 10) || (n =? 13))%N.

Fixpoint skipWhiteSpace (s : string) : string :=
  match s with
  | EmptyString => EmptyString
  | String c s' => if isWhiteSpace c then skipWhiteSpace s' else s
  end.

(** The text after the literal [p], when the text starts with it. *)
Fixpoint literal (p s : string) {struct p} : option string :=
  match p, s with
  | EmptyString, _ => Some s
  | String _ _, EmptyString => None
  | String a p', String b s' => if Ascii.eqb a b then literal p' s' else None
  end.

Definition hexValue (c : ascii) : option N :=
  let n := N_of_ascii c in
  if ((48 <=? n) && (n <=? 57))%N then Some (n - 48)%N
  else if ((97 <=? n) && (n <=? 102))%N then Some (n - 87)%N
  else if ((65 <=? n) && (n <=? 70))%N then Some (n - 55)%N
  else None.

(** The code unit of four hexadecimal digits; units from 256 on are beyond
    the strings of the model. *)
Definition hex4 (a b c d : ascii) : option ascii :=
  match hexValue a, hexValue b, hexValue c, hexValue d with
  | Some x, Some y, Some z, Some w =>
      let n := (((x * 16 + y) * 16 + z) * 16 + w)%N in
      if (n <? 256)%N then Some (ascii_of_N n) else None
  | _, _, _, _ => None
  end.

(** The unit a one-letter escape stands for. *)
Definition simpleEscape (c : ascii) : option ascii :=
  let n := N_of_ascii c in
  if (n =? 34)%N then Some DQUOTE
  else if (n =? 92)%N then Some BACKSLASH
  else if (n =? 47)%N then Some "/"%char
  else if (n =? 98)%N then Some "008"%char
  else if (n =? 102)%N then Some "012"%char
  else if (n =? 110)%N then Some "010"%char
  else if (n =? 114)%N then Some "013"%char
  else if (n =? 116)%N then Some "009"%char
  else None.

(** The characters of a string literal after its opening quote, up to and
    including the closing quote; the decoded string and the text left. *)
Fixpoint parseStringBody (s : string) : option (string * string) :=
  match s with
  | EmptyString => None
  | String c r =>
      if Ascii.eqb c DQUOTE then Some (EmptyString, r)
      else if Ascii.eqb c BACKSLASH then
        match r with
        | EmptyString => None
        | String e r1 =>
            if Ascii.eqb e "u" then
              match r1 with
              | String h1 (String h2 (String h3 (String h4 r2))) =>
                  match hex4 h1 h2 h3 h4, parseStringBody r2 with
                  | Some u, Some (str, rest) => Some (String u str, rest)
                  | _, _ => None
                  end
              | _ => None
              end
            else
              match simpleEscape e, parseStringBody r1 with
              | Some u, Some (str, rest) => Some (String u str, rest)
              | _, _ => None
              end
        end
      else if (N_of_ascii c <? 32)%N then None
      else
        match parseStringBody r with
        | Some (str, rest) => Some (String c str, rest)
        | None => None
        end
  end.

(** Recursive descent over the grammar of JSON values; [fuel] bounds the
    number of nested calls, [parse] below gives enough of it. *)
Fixpoint parseValue (fuel : nat) (s : string) {struct fuel}
    : option (value * string) :=
  match fuel with
  | O => None
  | S fuel' =>
      let s1 := skipWhiteSpace s in
      match literal "null" s1 with
      | Some r => Some (Null, r)
      | None =>
      match literal "true" s1 with
      | Some r => Some (Bool true, r)
      | None =>
      match literal "false" s1 with
      | Some r => Some (Bool false, r)
      | None =>
      match s1 with
      | EmptyString => None
      | String c r =>
          if Ascii.eqb c DQUOTE then
            match parseStringBody r with
            | Some (str, rest) => Some (Str str, rest)
            | None => None
            end
          else if Ascii.eqb c "[" then
            match literal "]" (skipWhiteSpace r) with
            | Some rest => Some (Arr [], rest)
            | None =>
                match parseElements fuel' r with
                | Some (elements, rest) => Some (Arr elements, rest)
                | None => None
                end
            end
          else if Ascii.eqb c "{" then
            match literal "}" (skipWhiteSpace r) with
            | Some rest => Some (Obj [], rest)
            | None =>
                match parseMembers fuel' r with
                | Some (members, rest) => Some (Obj members, rest)
                | None => None
                end
            end
          else None
      end end end end
  end

with parseElements (fuel : nat) (s : string) {struct fuel}
    : option (list value * string) :=
  match fuel with
  | O => None
  | S fuel' =>
      match parseValue fuel' s with
      | None => None
      | Some (v, r) =>
          let r1 := skipWhiteSpace r in
          match literal "," r1 with
          | Some r2 =>
              match parseElements fuel' r2 with
              | Some (vs, rest) => Some (v :: vs, rest)
              | None => None
              end
          | None =>
              match literal "]" r1 with
              | Some rest => Some ([v], rest)
              | None => None
              end
          end
      end
  end

with parseMembers (fuel : nat) (s : string) {struct fuel}
    : option (list (string * value) * string) :=
  match fuel with
  | O => None
  | S fuel' =>
      match literal (chr DQUOTE) (skipWhiteSpace s) with
      | None => None
      | Some r =>
          match parseStringBody r with
          | None => None
          | Some (key, r1) =>
              match literal ":" (skipWhiteSpace r1) with
              | None => None
              | Some r2 =>
                  match parseValue fuel' r2 with
                  | None => None
                  | Some (v, r3) =>
                      let r4 := skipWhiteSpace r3 in
                      match literal "," r4 with
                      | Some r5 =>
                          match parseMembers fuel' r5 with
                          | Some (ms, rest) => Some ((key, v) :: ms, rest)
                          | None => None
                          end
                      | None =>
                          match literal "}" r4 with
                          | Some rest => Some ([(key, v)], rest)
                          | None => None
                          end
                      end
                  end
              end
          end
      end
  end.

(** [JSON.parse(text)]: one value, white space around it, nothing else;
    [None] where [JSON.parse] throws a [SyntaxError], and for the texts
    the model leaves out: those with a number and those with the escape of
    a code unit from 256 on. *)
Definition parse (text : string) : option value :=
  match parseValue (S (String.length text)) text with
  | Some (v, rest) =>
      if isEmpty (skipWhiteSpace rest) then Some v else None
  | None => None
  end.

(** [object[key]] on a parsed object: the member set last under [key]
    ([JSON.parse] overwrites on a repeated key), [None] for [undefined]. *)
Fixpoint get (members : list (string * value)) (key : string)
    : option value :=
  match members with
  | [] => None
  | (k, v) :: rest =>
      match get rest key with
      | Some later => Some later
      | None => if k =? key then Some v else None
      end
  end.

End JSON.

(** ** The serializer ([downloadExport]) *)

(** The object [JSON.stringify] walks for an attribute: own properties in
    creation order, a property whose value is [undefined] left out. *)
Definition attributeValue (a : Attribute) : JSON.value :=
  JSON.Obj
    (("name", JSON.Str (attr_name a)) ::
     ("type", JSON.Str (attr_type a)) ::
     match attr_description a with
     | Some d => [("description", JSON.Str d)]
     | None => []
     end).

Definition templateValue (data : TemplateData) : JSON.value :=
  JSON.Obj
    [("name", JSON.Str (td_name data));
     ("category", JSON.Str (td_category data));
     ("description", JSON.Str (td_description data));
     ("attributes", JSON.Arr (map attributeValue (td_attributes data)))].

(** [JSON.stringify(data, null, 2)], the [json] case. *)
Definition toJSON (data : TemplateData) : string :=
  JSON.stringify (templateValue data) 2.

(** One pass of the [forEach] of the [csv] case. *)
Definition csvRow (attr : Attribute) : string :=
  JSON.chr JSON.DQUOTE ++ attr_name attr ++ JSON.chr JSON.DQUOTE ++ "," ++
  JSON.chr JSON.DQUOTE ++ attr_type attr ++ JSON.chr JSON.DQUOTE ++ "," ++
  JSON.chr JSON.DQUOTE ++ Js.templateString (attr_description attr) ++
  JSON.chr JSON.DQUOTE ++ JSON.chr JSON.LF.

Definition csvHeader : string := "Name,Type,Description" ++ JSON.chr JSON.LF.

(** The [csv] case: the header, then [content += row] for each attribute. *)
Definition toCSV (data : TemplateData) : string :=
  fold_left (fun content attr => content ++ csvRow attr)
            (td_attributes data) csvHeader.

(** The arguments of [downloadFile]. *)
Record Download := mkDownload {
  dl_content : string;
  dl_filename : string;
  dl_type : string
}.

(** The [switch] of [downloadExport] on the chosen format. *)
Definition exportFile (data : TemplateData) (format : string) : Download :=
  if format =? "json" then
    mkDownload (toJSON data)
               (Js.strOr (td_name data) "template" ++ ".json")
               "application/json"
  else if format =? "csv" then
    mkDownload (toCSV data)
               (Js.strOr (td_name data) "template" ++ ".csv")
               "text/csv"
  else
    mkDownload (JSON.stringify (templateValue data) 2)
               (Js.strOr (td_name data) "template" ++ ".xml")
               "application/xml".

(** ** The application object and its methods *)

(** An entry of [savedConfigs].  [cfg_attributes] is the number of
    attributes, as the code stores it; [cfg_lastModified] is the instant
    read by [new Date()], in milliseconds, whose ISO-8601 text the code
    stores. *)
Record SavedConfig := mkSavedConfig {
  cfg_id : string;
  cfg_name : string;
  cfg_category : string;
  cfg_description : string;
  cfg_attributes : nat;
  cfg_lastModified : Z;
  cfg_size : string
}.

(** The fields of [this] the modelled methods read or write. *)
Record App := mkApp {
  currentSection : string;
  currentWizardStep : Z;
  currentDataTypeStep : Z;
  attributes : list Attribute;
  savedConfigs : list SavedConfig
}.

(** The state the constructor leaves. *)
Definition constructed : App :=
  mkApp "dashboard" 1 1 [] [].

(** What a method hands back to its caller. *)
Inductive JsValue :=
| JsUndefined : JsValue
| JsString : string -> JsValue.

(** The calls a method makes across the boundary of the pipeline. *)
Inductive Effect :=
| ShowToast (message type : string)
| ConsoleLog (label argument : string)
| UpdateWizardStep (step : Z)
| DownloadFile (file : Download)
| RenderReferenceCards (items : list RefItem)
| RenderNoResults
| RenderConfigCards (configs : list SavedConfig).

Record Outcome := mkOutcome {
  returned : JsValue;
  after : App;
  effects : list Effect
}.

(** [showToast(message)] takes ['info'] for the type. *)
Definition showToastDefault (message : string) : Effect :=
  ShowToast message "info".

(** *** The wizard *)

Definition updateWizardStep (app : App) : list Effect :=
  [UpdateWizardStep (currentWizardStep app)].

Definition setWizardStep (step : Z) (app : App) : App :=
  mkApp (currentSection app) step (currentDataTypeStep app)
        (attributes app) (savedConfigs app).

Definition nextWizardStep (app : App) : Outcome :=
  if (currentWizardStep app <? 4)%Z then
    let app' := setWizardStep (currentWizardStep app + 1) app in
    mkOutcome JsUndefined app' (updateWizardStep app')
  else mkOutcome JsUndefined app [].

Definition previousWizardStep (app : App) : Outcome :=
  if (currentWizardStep app >? 1)%Z then
    let app' := setWizardStep (currentWizardStep app - 1) app in
    mkOutcome JsUndefined app' (updateWizardStep app')
  else mkOutcome JsUndefined app [].

(** The two buttons of the wizard. *)
Inductive WizardOp := Next | Previous.

Definition wizardStep (op : WizardOp) (app : App) : App :=
  match op with
  | Next => after (nextWizardStep app)
  | Previous => after (previousWizardStep app)
  end.

(** The application after the clicks [ops], first click first. *)
Definition runWizard (ops : list WizardOp) (app : App) : App :=
  fold_left (fun a op => wizardStep op a) ops app.

(** *** The store *)

Definition setSavedConfigs (configs : list SavedConfig) (app : App) : App :=
  mkApp (currentSection app) (currentWizardStep app)
        (currentDataTypeStep app) (attributes app) configs.

(** [`template-${Date.now()}`] at the clock reading [now]. *)
Definition configId (now : Z) : string :=
  "template-" ++ Js.numberToString now.

(** The [size] text of a saved configuration. *)
Definition configSize (data : TemplateData) : string :=
  Js.kilobytesToFixed1
    (N.of_nat (String.length (JSON.stringify (templateValue data) 0)))
  ++ " KB".

Definition newConfig (data : TemplateData) (now stamp : Z) : SavedConfig :=
  mkSavedConfig (configId now) (td_name data) (td_category data)
                (td_description data) (List.length (td_attributes data))
                stamp (configSize data).

(** [saveTemplate()], with the clock readings of [Date.now()] and of
    [new Date()]. *)
Definition saveTemplate (doc : Document) (now stamp : Z) (app : App)
    : Outcome :=
  let templateData := collectTemplateData doc in
  if negb (Js.truthy (td_name templateData)) then
    mkOutcome JsUndefined app
              [ShowToast "Please enter a template name" "error"]
  else if (List.length (td_attributes templateData) =? 0)%nat then
    mkOutcome JsUndefined app
              [ShowToast "Please add at least one attribute" "error"]
  else
    let config := newConfig templateData now stamp in
    mkOutcome JsUndefined
              (setSavedConfigs (config :: savedConfigs app) app)
              [showToastDefault
                 ("Template " ++ JSON.chr JSON.DQUOTE ++ td_name templateData
                  ++ JSON.chr JSON.DQUOTE ++ " saved successfully")].

(** [filterSavedConfigs(searchTerm)]. *)
Definition filterSavedConfigs (searchTerm : string) (app : App) : Outcome :=
  mkOutcome JsUndefined app [ConsoleLog "Filtering saved configs:" searchTerm].

(** [deleteConfig(configId)]; [confirmed] is the answer to [confirm(...)],
    [grid] whether [#configsGrid] exists. *)
Definition deleteConfig (id : string) (confirmed grid : bool) (app : App)
    : Outcome :=
  if confirmed then
    let configs :=
      filter (fun config => negb (cfg_id config =? id)) (savedConfigs app) in
    mkOutcome JsUndefined (setSavedConfigs configs app)
              ((if grid then [RenderConfigCards configs] else []) ++
               [ShowToast "Configuration deleted" "success"])%list
  else mkOutcome JsUndefined app [].

(** [downloadExport()]. *)
Definition downloadExport (doc : Document) (app : App) : Outcome :=
  let data := collectTemplateData doc in
  let format := Js.orElse (exportFormat doc) "json" in
  mkOutcome JsUndefined app
            [DownloadFile (exportFile data format);
             ShowToast "Template exported successfully" "success"].

(** [displayFilteredData(filterType, searchTerm)]. *)
Definition displayFilteredData (doc : Document)
    (filterType searchTerm : string) (app : App) : Outcome :=
  if referenceGrid doc then
    let shown := filteredData filterType searchTerm in
    mkOutcome JsUndefined app
              [if (List.length shown =? 0)%nat then RenderNoResults
               else RenderReferenceCards shown]
  else mkOutcome JsUndefined app [].

(** ** The validator's figures ([loadValidationData]) *)

Record ValidationResult := mkResult {
  result_item : string;
  result_status : string
}.

Definition namingResults : list ValidationResult := [
  mkResult "Template names follow PascalCase convention" "success";
  mkResult "Attribute names use camelCase pattern" "success";
  mkResult "No reserved words used in naming" "warning";
  mkResult "Consistent prefix/suffix usage" "success" ].

Definition bestPracticesResults : list ValidationResult := [
  mkResult "Quality attributes included" "warning";
  mkResult "Proper alarm thresholds defined" "success";
  mkResult "Engineering units specified" "success";
  mkResult "Historical data configuration complete" "success" ].

Definition securityResults : list ValidationResult := [
  mkResult "Security classifications defined" "success";
  mkResult "Access levels properly assigned" "success";
  mkResult "No exposed sensitive attributes" "success";
  mkResult "Audit trail configuration" "warning" ].

Definition performanceResults : list ValidationResult := [
  mkResult "Data types optimized for performance" "success";
  mkResult "Update frequencies appropriately set" "success";
  mkResult "Database indexing considerations" "warning";
  mkResult "Memory usage within limits" "success" ].

(** The counters [critical] and [warnings] after one pass of the
    [forEach]. *)
Definition tallyStep (counters : Z * Z) (result : ValidationResult) : Z * Z :=
  let '(critical, warnings) := counters in
  let warnings := if result_status result =? "warning"
                  then (warnings + 1)%Z else warnings in
  let critical := if result_status result =? "error"
                  then (critical + 1)%Z else critical in
  (critical, warnings).

Definition tally (results : list ValidationResult) : Z * Z :=
  fold_left tallyStep results (0%Z, 0%Z).

(** [Math.max(0, 100 - (critical * 20) - (warnings * 5))]. *)
Definition scoreOf (critical warnings : Z) : Z :=
  Z.max 0 (100 - critical * 20 - warnings * 5).

(** The score of a run over the findings [results]. *)
Definition validationScore (results : list ValidationResult) : Z :=
  let '(critical, warnings) := tally results in
  scoreOf critical warnings.

(** The figures [loadValidationData] writes to the page: score, critical
    issues, warnings and fixed issues. *)
Definition loadValidationData : Z * Z * Z * Z :=
  let results :=
    (namingResults ++ bestPracticesResults ++
     securityResults ++ performanceResults)%list in
  let '(critical, warnings) := tally results in
  (scoreOf critical warnings, critical, warnings, 16%Z).

(* ================================================================== *)
(** * Part II: the statements of the specification *)
(* ================================================================== *)

Module Spec.

(** [search] occurs in [text] as a case-insensitive substring: some
    stretch of [text] equals [search] up to the case of its letters. *)
Definition containsIgnoringCase (text search : string) : Prop :=
  exists before stretch rest,
    text = before ++ stretch ++ rest /\
    Js.toLowerCase stretch = Js.toLowerCase search.

(** An entry matches a search text on its name, description or category
    text. *)
Definition entryMatches (search : string) (item : RefItem) : Prop :=
  containsIgnoringCase (item_name item) search \/
  containsIgnoringCase (item_description item) search \/
  containsIgnoringCase (item_category item) search.

(** The value of a field that defaults to the empty string. *)
Definition fieldOrEmpty (v : option string) : string :=
  match v with Some s => s | None => EmptyString end.

(** A row with a non-empty name and a non-empty data type. *)
Definition rowFilled (row : AttributeRow) : bool :=
  match row_name row, row_type row with
  | Some name, Some type =>
      negb (name =? EmptyString) && negb (type =? EmptyString)
  | _, _ => false
  end.

(** The one attribute a filled row stands for. *)
Definition rowAttribute (row : AttributeRow) : Attribute :=
  mkAttribute (fieldOrEmpty (row_name row)) (fieldOrEmpty (row_type row))
              (row_description row).

(** The numbers of error and of warning findings of a run. *)
Definition errorCount (results : list ValidationResult) : nat :=
  List.length (filter (fun r => result_status r =? "error") results).

Definition warningCount (results : list ValidationResult) : nat :=
  List.length (filter (fun r => result_status r =? "warning") results).

(** [max(0, 100 - 20*errorCount - 5*warningCount)]. *)
Definition score (errors warnings : nat) : Z :=
  Z.max 0 (100 - 20 * Z.of_nat errors - 5 * Z.of_nat warnings).

(** The number of lines of a text, each ended by a line feed. *)
Fixpoint lineCount (s : string) : nat :=
  match s with
  | EmptyString => O
  | String c s' =>
      if Ascii.eqb c JSON.LF then S (lineCount s') else lineCount s'
  end.

(** A field with its double quotes escaped by doubling, between double
    quotes. *)
Fixpoint escapeQuotes (s : string) : string :=
  match s with
  | EmptyString => EmptyString
  | String c s' =>
      if Ascii.eqb c JSON.DQUOTE
      then String c (String c (escapeQuotes s'))
      else String c (escapeQuotes s')
  end.

Definition quotedField (s : string) : string :=
  JSON.chr JSON.DQUOTE ++ escapeQuotes s ++ JSON.chr JSON.DQUOTE.

Definition escapedRow (attr : Attribute) : string :=
  quotedField (attr_name attr) ++ "," ++
  quotedField (attr_type attr) ++ "," ++
  quotedField (Js.templateString (attr_description attr)) ++
  JSON.chr JSON.LF.

(** The CSV export as the specification words it: the header row, then
    one row of quoted, double-quote-escaped fields per attribute, which
    makes one line more than there are attributes. *)
Definition csvAsStated (data : TemplateData) : Prop :=
  toCSV data =
    csvHeader ++ String.concat EmptyString (map escapedRow (td_attributes data)) /\
  lineCount (toCSV data) = S (List.length (td_attributes data)).

(** The line feeds inside the fields of an attribute. *)
Definition fieldLineFeeds (attr : Attribute) : nat :=
  lineCount (attr_name attr) + lineCount (attr_type attr) +
  lineCount (Js.templateString (attr_description attr)).

(** [Store.save] as the specification words it, for a record that is
    accepted: an id no saved record has comes back to the caller, and the
    new record, under that id, is the head of the list. *)
Definition saveAsStated (doc : Document) (now stamp : Z) (app : App) : Prop :=
  let out := saveTemplate doc now stamp app in
  exists id config,
    returned out = JsString id /\
    ~ In id (map cfg_id (savedConfigs app)) /\
    cfg_id config = id /\
    savedConfigs (after out) = config :: savedConfigs app.

(** Every saved configuration got its id from a clock reading, none of
    them [now]. *)
Definition savedBefore (now : Z) (configs : list SavedConfig) : Prop :=
  Forall (fun config => exists t, cfg_id config = configId t /\ t <> now)
         configs.

(** Modelled from the spec: part of [fromJSON] below; the string a
    property holds, [None] when the property is missing or holds something
    else. *)
Definition asString (v : option JSON.value) : option string :=
  match v with
  | Some (JSON.Str s) => Some s
  | _ => None
  end.

(** Modelled from the spec: part of [fromJSON] below; the attribute a
    parsed object stands for: [name] and [type] are strings,
    [description] is a string or is missing. *)
Definition attributeOfValue (v : JSON.value) : option Attribute :=
  match v with
  | JSON.Obj members =>
      match asString (JSON.get members "name"),
            asString (JSON.get members "type") with
      | Some name, Some type =>
          match JSON.get members "description" with
          | None => Some (mkAttribute name type None)
          | Some (JSON.Str d) => Some (mkAttribute name type (Some d))
          | Some _ => None
          end
      | _, _ => None
      end
  | _ => None
  end.

(** Modelled from the spec: part of [fromJSON] below; the attributes of
    a parsed array, in order. *)
Fixpoint attributesOfValues (vs : list JSON.value) : option (list Attribute) :=
  match vs with
  | [] => Some []
  | v :: rest =>
      match attributeOfValue v, attributesOfValues rest with
      | Some a, Some others => Some (a :: others)
      | _, _ => None
      end
  end.

(** Modelled from the spec: part of [fromJSON] below; the record a
    parsed object stands for, read off its four structural fields. *)
Definition templateOfValue (v : JSON.value) : option TemplateData :=
  match v with
  | JSON.Obj members =>
      match asString (JSON.get members "name"),
            asString (JSON.get members "category"),
            asString (JSON.get members "description"),
            JSON.get members "attributes" with
      | Some name, Some category, Some description, Some (JSON.Arr vs) =>
          match attributesOfValues vs with
          | Some attrs => Some (mkTemplateData name category description attrs)
          | None => None
          end
      | _, _, _, _ => None
      end
  | _ => None
  end.

(** Modelled from the spec: [fromJSON], the reading of an exported
    [.json] text back into a record, is not in the source (the import
    methods only show a notification).  It is [JSON.parse] followed by
    reading the four structural fields; [None] stands for a rejected
    text. *)
Definition fromJSON (text : string) : option TemplateData :=
  match JSON.parse text with
  | Some v => templateOfValue v
  | None => None
  end.

End Spec.

(** ** Invariants and sample inputs *)

(** The invariant of the wizard. *)
Definition stepInRange (app : App) : Prop :=
  (1 <= currentWizardStep app <= 4)%Z.

(** A form whose name field is empty, with one filled attribute row. *)
Definition emptyNameDocument : Document :=
  mkDocument (Some EmptyString) (Some "Pumps") None
             [mkRow (Some "Flow") (Some "AI") (Some "Flow rate")]
             None false.

(** The form of the specification's example: the name [PumpA] and one
    attribute row, [Flow] with an empty description; its type is [AI], an
    option of the select that [addAttributeRow] puts in a row.  The export
    format chosen is [xml]. *)
Definition pumpDocument : Document :=
  mkDocument (Some "PumpA") (Some EmptyString) (Some EmptyString)
             [mkRow (Some "Flow") (Some "AI") (Some EmptyString)]
             (Some "xml") true.

(** The application after [PumpA] was saved at the clock reading 1000. *)
Definition pumpSaved : App :=
  after (saveTemplate pumpDocument 1000 1000 constructed).

(** A record whose one attribute has a double quote in its description. *)
Definition inchData : TemplateData :=
  mkTemplateData "Pipe" EmptyString EmptyString
    [mkAttribute "Bore" "AI"
       (Some ("5" ++ JSON.chr JSON.DQUOTE ++ " pipe"))].

(** A form that gives that record: the name [Pipe], one row whose
    description was typed with a double quote in it, and the export
    format [csv] chosen. *)
Definition inchDocument : Document :=
  mkDocument (Some "Pipe") (Some EmptyString) (Some EmptyString)
             [mkRow (Some "Bore") (Some "AI")
                    (Some ("5" ++ JSON.chr JSON.DQUOTE ++ " pipe"))]
             (Some "csv") true.

(** ** Measures and predicates of the round-trip proof *)

Module Measure.

(** A text of white space only. *)
Fixpoint allWhite (s : string) : bool :=
  match s with
  | EmptyString => true
  | String c s' => JSON.isWhiteSpace c && allWhite s'
  end.

(** A text that starts with a character that neither is white space nor
    closes an array or an object. *)
Definition startsValue (s : string) : Prop :=
  match s with
  | EmptyString => False
  | String c _ =>
      JSON.isWhiteSpace c = false /\
      Ascii.eqb "]" c = false /\ Ascii.eqb "}" c = false
  end.

(** The calls the parser nests on a value: one for the value, one more
    for each element or member of it. *)
Fixpoint size (v : JSON.value) : nat :=
  match v with
  | JSON.Arr elements => S (list_sum (map (fun x => S (size x)) elements))
  | JSON.Obj members =>
      S (list_sum (map (fun m => S (size (snd m))) members))
  | _ => 1
  end.

Definition elementsSize (elements : list JSON.value) : nat :=
  list_sum (map (fun x => S (size x)) elements).

Definition membersSize (members : list (string * JSON.value)) : nat :=
  list_sum (map (fun m => S (size (snd m))) members).

(** The white space [wrap] puts before each member and before the closing
    bracket. *)
Definition padding (gap indent : string) : string :=
  if JSON.isEmpty gap then EmptyString else JSON.chr JSON.LF ++ indent.

(** The text of one member of an object. *)
Definition memberText (gap indent : string) (member : string * JSON.value)
    : string :=
  JSON.QuoteJSONString (fst member) ++ ":" ++
  (if JSON.isEmpty gap then EmptyString else " ") ++
  JSON.serialize gap indent (snd member).

(** What the round trip asks of a value: under any indentation, after any
    white space and before any text, the parser reads the value back and
    leaves the text. *)
Definition readsBack (gap : string) (v : JSON.value) : Prop :=
  forall indent fuel w rest,
    allWhite indent = true -> allWhite w = true -> size v <= fuel ->
    JSON.parseValue fuel (w ++ JSON.serialize gap indent v ++ rest)
    = Some (v, rest).

End Measure.

(* ================================================================== *)
(** * Part I, continued: further methods of [sw.js] *)
(* ================================================================== *)

(** ** Runs of the store *)

(** The two operations that write [savedConfigs]: a save from the form
    [doc] at the clock readings [now] and [stamp], and a delete of the
    configuration [id] with the answer given to [confirm]. *)
Inductive StoreOp :=
| SaveOp (doc : Document) (now stamp : Z)
| DeleteOp (id : string) (confirmed grid : bool).

Definition storeStep (op : StoreOp) (app : App) : App :=
  match op with
  | SaveOp doc now stamp => after (saveTemplate doc now stamp app)
  | DeleteOp id confirmed grid => after (deleteConfig id confirmed grid app)
  end.

(** The application after the operations [ops], first one first. *)
Definition runStore (ops : list StoreOp) (app : App) : App :=
  fold_left (fun a op => storeStep op a) ops app.

(** The readings of [Date.now()] a run makes, in order. *)
Fixpoint clockReadings (ops : list StoreOp) : list Z :=
  match ops with
  | [] => []
  | SaveOp _ now _ :: rest => now :: clockReadings rest
  | DeleteOp _ _ _ :: rest => clockReadings rest
  end.

(** ** Input sanitizing ([sanitizeInput]) *)

Module Sanitize.

Definition LT : ascii := "<"%char.
Definition GT : ascii := ">"%char.
Definition APOSTROPHE : ascii := "039"%char.

(** [s] holds the unit [c]. *)
Fixpoint hasUnit (c : ascii) (s : string) : bool :=
  match s with
  | EmptyString => false
  | String d s' => Ascii.eqb d c || hasUnit c s'
  end.

(** [s.replace(/<[^>]*>/g, '')], read from the left.  Outside a match, a
    [<] starts one exactly when a [>] comes somewhere after it, and the
    match then runs to the first [>]; [inside] tells that such a match is
    under way. *)
Fixpoint stripTagsFrom (inside : bool) (s : string) : string :=
  match s with
  | EmptyString => EmptyString
  | String c s' =>
      if inside then
        if Ascii.eqb c GT then stripTagsFrom false s'
        else stripTagsFrom true s'
      else if Ascii.eqb c LT && hasUnit GT s' then stripTagsFrom true s'
      else String c (stripTagsFrom false s')
  end.

Definition stripTags (s : string) : string := stripTagsFrom false s.

(** The class of the second pattern: [<], [>], the double quote and the
    apostrophe. *)
Definition isDangerous (c : ascii) : bool :=
  Ascii.eqb c LT || Ascii.eqb c GT ||
  Ascii.eqb c JSON.DQUOTE || Ascii.eqb c APOSTROPHE.

(** The second [replace]: every unit of that class is taken out. *)
Fixpoint removeDangerous (s : string) : string :=
  match s with
  | EmptyString => EmptyString
  | String c s' =>
      if isDangerous c then removeDangerous s'
      else String c (removeDangerous s')
  end.

(** White space and line terminators among the units below 256: tab,
    line feed, vertical tab, form feed, carriage return, space and
    no-break space. *)
Definition isTrimSpace (c : ascii) : bool :=
  let n := N_of_ascii c in
  ((9 <=? n) && (n <=? 13) || (n =? 32) || (n =? 160))%N.

Fixpoint trimStart (s : string) : string :=
  match s with
  | EmptyString => EmptyString
  | String c s' => if isTrimSpace c then trimStart s' else s
  end.

Fixpoint trimEnd (s : string) : string :=
  match s with
  | EmptyString => EmptyString
  | String c s' =>
      match trimEnd s' with
      | EmptyString => if isTrimSpace c then EmptyString else String c EmptyString
      | String d rest => String c (String d rest)
      end
  end.

(** [s.trim()]. *)
Definition trim (s : string) : string := trimEnd (trimStart s).

(** [s.substring(0, n)]. *)
Fixpoint substringTo (n : nat) (s : string) : string :=
  match n, s with
  | O, _ => EmptyString
  | S _, EmptyString => EmptyString
  | S n', String c s' => String c (substringTo n' s')
  end.

(** [sanitizeInput(input)] for a string [input]. *)
Definition sanitizeInput (input : string) : string :=
  substringTo 1000 (trim (removeDangerous (stripTags input))).

(** No unit of [s] is of that class. *)
Fixpoint harmless (s : string) : bool :=
  match s with
  | EmptyString => true
  | String c s' => negb (isDangerous c) && harmless s'
  end.

End Sanitize.

(** ** The template repository ([filterTemplates]) *)

(** An entry of [this.templateRepository]; the rating is in tenths
    ([4.8] is 48). *)
Record Template := mkTemplate {
  tpl_id : string;
  tpl_name : string;
  tpl_category : string;
  tpl_description : string;
  tpl_attributesCount : N;
  tpl_ratingTenths : N;
  tpl_featured : bool;
  tpl_tags : list string
}.

Definition initializeTemplateRepository : list Template := [
  mkTemplate "motor-template" "Electric Motor Template" "equipment"
    "Standard electric motor with common monitoring and control attributes"
    5 48 true ["motor"; "drive"; "industrial"];
  mkTemplate "valve-template" "Process Valve Template" "actuators"
    "Standard process control valve with position feedback"
    4 46 true ["valve"; "control"; "process"];
  mkTemplate "pump-template" "Centrifugal Pump Template" "equipment"
    "Centrifugal pump with flow, pressure, and condition monitoring"
    5 47 false ["pump"; "flow"; "pressure"]
].

(** What [filterTemplates] reads from the page: the values of
    [#templateSearch] and [#categoryFilter] ([None] for a missing
    element) and whether [#templateGrid] exists. *)
Record RepositoryPage := mkRepositoryPage {
  templateSearch : option string;
  categoryFilter : option string;
  templateGrid : bool
}.

(** The callback of the [filter] in [filterTemplates]. *)
Definition templateMatches (searchTerm category : string)
    (template : Template) : bool :=
  let matchesSearch :=
    Js.includes (Js.toLowerCase (tpl_name template)) searchTerm ||
    Js.includes (Js.toLowerCase (tpl_description template)) searchTerm ||
    existsb (fun tag => Js.includes (Js.toLowerCase tag) searchTerm)
            (tpl_tags template) in
  let matchesCategory :=
    negb (Js.truthy category) || (tpl_category template =? category) in
  matchesSearch && matchesCategory.

(** [renderTemplateCards(templates)]: the templates whose cards fill
    [#templateGrid], [None] when there is no grid and nothing is drawn. *)
Definition renderTemplateCards (page : RepositoryPage)
    (templates : list Template) : option (list Template) :=
  if templateGrid page then Some templates else None.

(** [filterTemplates()] over the repository [templateRepository]. *)
Definition filterTemplates (page : RepositoryPage)
    (templateRepository : list Template) : option (list Template) :=
  let searchTerm :=
    Js.orElse (option_map Js.toLowerCase (templateSearch page)) EmptyString in
  let category := Js.orElse (categoryFilter page) EmptyString in
  let filteredTemplates :=
    filter (templateMatches searchTerm category) templateRepository in
  renderTemplateCards page filteredTemplates.

(** A template answers a search text and a chosen category: the text
    occurs, whatever the case of its letters, in the name, in the
    description or in a tag, and the category is the chosen one when one
    is chosen. *)
Definition templateAnswers (search category : string) (template : Template)
    : Prop :=
  (Spec.containsIgnoringCase (tpl_name template) search \/
   Spec.containsIgnoringCase (tpl_description template) search \/
   exists tag, In tag (tpl_tags template) /\
               Spec.containsIgnoringCase tag search) /\
  (category = EmptyString \/ tpl_category template = category).


(** ** The service worker (the handlers at the head of [sw.js]) *)

Module ServiceWorker.

Definition CACHE_NAME : string := "aveva-config-production-v3.0.0".

Definition urlsToCache : list string := [
  "/";
  "/index.html";
  "/styles.css";
  "/app.js";
  "/manifest.json";
  "https://fonts.googleapis.com/css2?family=Inter:wght@400;500;600&family=JetBrains+Mono:wght@400&display=swap";
  "https://unpkg.com/lucide@latest/dist/umd/lucide.js"
].

(** What the handlers read of a request and of a response. *)
Record Request := mkRequest {
  req_method : string;
  req_url : string;
  req_destination : string
}.

Record Response := mkResponse {
  resp_status : Z;
  resp_type : string;
  resp_body : string
}.

(** A cache holds responses by request URL; the cache storage holds
    caches by name, in the order of their creation. *)
Definition Cache : Type := list (string * Response).
Definition CacheStorage : Type := list (string * Cache).

(** [cache.match(url)]. *)
Fixpoint cacheMatch (cache : Cache) (url : string) : option Response :=
  match cache with
  | [] => None
  | (key, response) :: rest =>
      if key =? url then Some response else cacheMatch rest url
  end.

(** [caches.match(url)]: the first cache, in the order of creation, that
    has the URL answers. *)
Fixpoint cachesMatch (storage : CacheStorage) (url : string)
    : option Response :=
  match storage with
  | [] => None
  | (_, cache) :: rest =>
      match cacheMatch cache url with
      | Some response => Some response
      | None => cachesMatch rest url
      end
  end.

(** [cache.put(url, response)]: the entry under the URL is replaced. *)
Definition cachePut (cache : Cache) (url : string) (response : Response)
    : Cache :=
  (filter (fun entry => negb (fst entry =? url)) cache ++ [(url, response)])%list.

(** [caches.open(name)] followed by [f] on the cache: the cache is
    created, last, when there is none of the name. *)
Fixpoint withCache (storage : CacheStorage) (name : string)
    (f : Cache -> Cache) : CacheStorage :=
  match storage with
  | [] => [(name, f [])]
  | (n, cache) :: rest =>
      if n =? name then (n, f cache) :: rest
      else (n, cache) :: withCache rest name f
  end.

(** The absolute URL of an entry of [urlsToCache], seen from the worker
    at [origin]: a path is taken from the origin, an absolute URL
    stands. *)
Definition resolve (origin url : string) : string :=
  if Js.startsWith url "/" then origin ++ url else url.

(** What the [fetch] handler does with a request: [respondedWith] is
    [None] when the handler returns without [respondWith] and the browser
    goes on as usual, and otherwise the response handed over ([None] in
    it for [undefined]); [usedNetwork] tells whether [fetch] was called;
    [storageAfter] is the cache storage once the [put] the handler
    started is done. *)
Record FetchResult := mkFetchResult {
  respondedWith : option (option Response);
  usedNetwork : bool;
  storageAfter : CacheStorage
}.

(** The [fetch] handler of the worker at [origin]; [network] is what
    [fetch(event.request)] comes to, [None] for a rejected promise. *)
Definition onFetch (origin : string) (request : Request)
    (network : option Response) (storage : CacheStorage) : FetchResult :=
  if negb (req_method request =? "GET") then
    mkFetchResult None false storage
  else if negb (Js.startsWith (req_url request) origin) then
    mkFetchResult None false storage
  else
    match cachesMatch storage (req_url request) with
    | Some response => mkFetchResult (Some (Some response)) false storage
    | None =>
        match network with
        | Some response =>
            if negb (resp_status response =? 200)%Z ||
               negb (resp_type response =? "basic")
            then mkFetchResult (Some (Some response)) true storage
            else mkFetchResult (Some (Some response)) true
                   (withCache storage CACHE_NAME
                      (fun cache => cachePut cache (req_url request) response))
        | None =>
            if req_destination request =? "document"
            then mkFetchResult
                   (Some (cachesMatch storage (resolve origin "/index.html")))
                   true storage
            else mkFetchResult (Some None) true storage
        end
    end.

(** The [activate] handler: every cache of another name is deleted. *)
Definition onActivate (storage : CacheStorage) : CacheStorage :=
  filter (fun named => fst named =? CACHE_NAME) storage.

(** A response [cache.addAll] accepts: status in the 200s, 206 apart. *)
Definition acceptable (response : Response) : bool :=
  ((200 <=? resp_status response) && (resp_status response <=? 299) &&
   negb (resp_status response =? 206))%Z.

(** The responses to all of [urls], when each is fetched and acceptable. *)
Fixpoint fetchAll (network : string -> option Response) (urls : list string)
    : option (list (string * Response)) :=
  match urls with
  | [] => Some []
  | url :: rest =>
      match network url, fetchAll network rest with
      | Some response, Some others =>
          if acceptable response then Some ((url, response) :: others)
          else None
      | _, _ => None
      end
  end.

(** The [install] handler at [origin], with the network as a function of
    the URL: the storage afterwards and whether [skipWaiting] was
    called.  [addAll] puts all or nothing; its failure is swallowed. *)
Definition onInstall (origin : string) (network : string -> option Response)
    (storage : CacheStorage) : CacheStorage * bool :=
  match fetchAll network (map (resolve origin) urlsToCache) with
  | Some fetched =>
      (withCache storage CACHE_NAME
         (fun cache =>
            fold_left (fun c entry => cachePut c (fst entry) (snd entry))
                      fetched cache),
       true)
  | None => (withCache storage CACHE_NAME (fun cache => cache), false)
  end.

(** A [GET] request for a document at [url]. *)
Definition navigation (url : string) : Request :=
  mkRequest "GET" url "document".

(** The entries of [urlsToCache] that are paths of the origin. *)
Definition precachedPaths : list string :=
  ["/"; "/index.html"; "/styles.css"; "/app.js"; "/manifest.json"].

End ServiceWorker.

(** ** Lookups in object literals *)

Module JsObject.

(** The property names every object inherits from [Object.prototype]. *)
Definition inheritedNames : list string := [
  "constructor"; "hasOwnProperty"; "isPrototypeOf"; "propertyIsEnumerable";
  "toLocaleString"; "toString"; "valueOf"; "__proto__";
  "__defineGetter__"; "__defineSetter__"; "__lookupGetter__";
  "__lookupSetter__"
].

(** [table[key]] for an object literal [table]: an own property, a
    property inherited from [Object.prototype] (a function or an object:
    truthy, with none of the properties the code reads from it), or
    [undefined]. *)
Inductive Lookup (A : Type) : Type :=
| Own : A -> Lookup A
| Inherited : Lookup A
| Absent : Lookup A.

Arguments Own {A} _.
Arguments Inherited {A}.
Arguments Absent {A}.

Fixpoint own {A : Type} (table : list (string * A)) (key : string)
    : option A :=
  match table with
  | [] => None
  | (k, v) :: rest => if k =? key then Some v else own rest key
  end.

Definition lookup {A : Type} (table : list (string * A)) (key : string)
    : Lookup A :=
  match own table key with
  | Some v => Own v
  | None =>
      if existsb (String.eqb key) inheritedNames then Inherited else Absent
  end.

(** [`${v}`] as a property key, for a string or [null]. *)
Definition keyOf (v : option string) : string :=
  match v with Some s => s | None => "null" end.

End JsObject.

(** ** The data type wizard *)

Module DataTypeWizard.

Import JsObject.

(** An entry of the table of [generateRecommendation]. *)
Record Recommendation := mkRecommendation {
  rec_type : string;
  rec_details : string;
  rec_memory : string;
  rec_range : string;
  rec_precision : string;
  rec_usage : list string
}.

Definition recommendations : list (string * Recommendation) := [
  ("analog-input",
   mkRecommendation "REAL" "4-byte floating point" "4 bytes per attribute"
     (String "177"%char "3.4E38") "6-7 decimal digits"
     ["Ideal for process variable measurements";
      "Supports engineering units conversion";
      "Compatible with trending and alarming"]);
  ("digital-input",
   mkRecommendation "BOOL" "1-byte boolean" "1 byte per attribute"
     "True/False" "N/A"
     ["Perfect for status and alarm signals";
      "Fast update performance";
      "Minimal memory usage"])
].

(** The application object with its field [selectedUseCase] ([None] for
    the [null] the constructor leaves). *)
Record Wizard := mkWizard {
  wz_app : App;
  selectedUseCase : option string
}.

Definition constructedWizard : Wizard := mkWizard constructed None.

(** What the methods of the wizard do to the page and the notification
    boundary. *)
Inductive PanelEffect :=
| SetTextContent (id text : string)
| ClearChildren (id : string)
| AppendListItem (id text : string)
| UpdateDataTypeStep (step : Z)
| Notify (message type : string).

(** The outcome of a method: the wizard afterwards, the effects in order
    and whether the method ended in a [TypeError]. *)
Record Run := mkRun {
  wizardAfter : Wizard;
  panelEffects : list PanelEffect;
  threw : bool
}.

(** [document.getElementById(id)] finds an element: [ids] are the ids
    the page has. *)
Definition hasElement (ids : list string) (id : string) : bool :=
  existsb (String.eqb id) ids.

(** The assignments [document.getElementById(id).textContent = text] in
    order, up to the first id the page does not have, where the
    assignment throws. *)
Fixpoint setTexts (ids : list string) (writes : list (string * string))
    : list PanelEffect * bool :=
  match writes with
  | [] => ([], false)
  | (id, text) :: rest =>
      if hasElement ids id then
        let '(effs, failed) := setTexts ids rest in
        (SetTextContent id text :: effs, failed)
      else ([], true)
  end.

Definition setDataTypeStep (step : Z) (w : Wizard) : Wizard :=
  mkWizard (mkApp (currentSection (wz_app w)) (currentWizardStep (wz_app w))
                  step (attributes (wz_app w)) (savedConfigs (wz_app w)))
           (selectedUseCase w).


(** [generateRecommendation()] on a page with the ids [ids]. *)
Definition generateRecommendation (ids : list string) (w : Wizard) : Run :=
  match lookup recommendations (keyOf (selectedUseCase w)) with
  | Absent => mkRun w [] false
  | Own rec =>
      let '(effs, failed) :=
        setTexts ids [("recommendedType", rec_type rec);
                      ("typeDetails", rec_details rec);
                      ("memoryUsage", rec_memory rec);
                      ("valueRange", rec_range rec);
                      ("precisionLevel", rec_precision rec)] in
      if failed then mkRun w effs true
      else
        mkRun w
          (effs ++
           (if hasElement ids "usageRecommendations"
            then ClearChildren "usageRecommendations" ::
                 map (AppendListItem "usageRecommendations") (rec_usage rec)
            else []) ++
           [Notify "Recommendation generated" "success"])%list
          false
  | Inherited =>
      let '(effs, failed) :=
        setTexts ids [("recommendedType", EmptyString);
                      ("typeDetails", EmptyString);
                      ("memoryUsage", EmptyString);
                      ("valueRange", EmptyString);
                      ("precisionLevel", EmptyString)] in
      if failed then mkRun w effs true
      else if hasElement ids "usageRecommendations"
      then mkRun w (effs ++ [ClearChildren "usageRecommendations"])%list true
      else mkRun w (effs ++ [Notify "Recommendation generated" "success"])%list
                 false
  end.

Definition updateDataTypeStep (w : Wizard) : list PanelEffect :=
  [UpdateDataTypeStep (currentDataTypeStep (wz_app w))].

Definition nextDataTypeStep (ids : list string) (w : Wizard) : Run :=
  if (currentDataTypeStep (wz_app w) <? 3)%Z then
    let w' := setDataTypeStep (currentDataTypeStep (wz_app w) + 1) w in
    if (currentDataTypeStep (wz_app w') =? 3)%Z then
      let generated := generateRecommendation ids w' in
      mkRun (wizardAfter generated)
            (updateDataTypeStep w' ++ panelEffects generated)%list
            (threw generated)
    else mkRun w' (updateDataTypeStep w') false
  else mkRun w [] false.





(** The ids [generateRecommendation] looks up. *)
Definition panelIds : list string :=
  ["recommendedType"; "typeDetails"; "memoryUsage"; "valueRange";
   "precisionLevel"; "usageRecommendations"].

(** A use case the table has no entry for, own or inherited. *)
Definition unknownUseCase (useCase : option string) : Prop :=
  lookup recommendations (keyOf useCase) = Absent.


End DataTypeWizard.

(** ** The pre-built templates of the generator ([applyTemplate]) *)

Module Generator.

Import JsObject.

(** An entry of the table of [applyTemplate]. *)
Record GeneratorTemplate := mkGeneratorTemplate {
  gt_name : string;
  gt_attributes : list Attribute
}.

Definition templates : list (string * GeneratorTemplate) := [
  ("motor",
   mkGeneratorTemplate "MotorTemplate"
     [mkAttribute "RunningStatus" "DI" (Some "Motor running status");
      mkAttribute "Speed" "AI" (Some "Motor speed");
      mkAttribute "Current" "AI" (Some "Motor current")]);
  ("valve",
   mkGeneratorTemplate "ValveTemplate"
     [mkAttribute "Position" "AI" (Some "Valve position");
      mkAttribute "Mode" "DI" (Some "Auto/Manual mode")]);
  ("pump",
   mkGeneratorTemplate "PumpTemplate"
     [mkAttribute "Flow" "AI" (Some "Flow rate");
      mkAttribute "Pressure" "AI" (Some "Discharge pressure")])
].

(** The attribute rows of the page around [#attributesList]: the rows
    before the list in document order, the rows in the list ([None] when
    the page has no such list) and the rows after it.  No row encloses
    the list. *)
Record GeneratorPage := mkGeneratorPage {
  rowsBefore : list AttributeRow;
  attributesList : option (list AttributeRow);
  rowsAfter : list AttributeRow
}.

(** The document [collectTemplateData] reads: the fields of [fields],
    the rows of [page] in document order. *)
Definition pageDocument (fields : Document) (page : GeneratorPage)
    : Document :=
  mkDocument (templateName fields) (templateCategory fields)
             (templateDescription fields)
             (rowsBefore page ++
              match attributesList page with
              | Some rows => rows
              | None => []
              end ++ rowsAfter page)%list
             (exportFormat fields) (referenceGrid fields).

(** The options of the select [addAttributeRow] puts in a row. *)
Definition rowOptions : list string := ["DI"; "DO"; "AI"; "AO"; "STRING"].

(** The value of that select after [select.value = v]: [v] when it is
    the value of an option, else no option is selected and the value is
    empty. *)
Definition selectValue (v : string) : string :=
  if existsb (String.eqb v) rowOptions then v else EmptyString.

(** The value of a text input after [input.value = v]: line feeds and
    carriage returns are taken out. *)
Fixpoint inputValue (v : string) : string :=
  match v with
  | EmptyString => EmptyString
  | String c v' =>
      if Ascii.eqb c "010"%char || Ascii.eqb c "013"%char
      then inputValue v' else String c (inputValue v')
  end.

(** The row [addAttributeRow] appends: empty name and description, the
    first option selected. *)
Definition blankRow : AttributeRow :=
  mkRow (Some EmptyString) (Some "DI") (Some EmptyString).

(** [addAttributeRow()]: nothing without the list. *)
Definition addAttributeRow (page : GeneratorPage) : GeneratorPage :=
  match attributesList page with
  | Some rows =>
      mkGeneratorPage (rowsBefore page) (Some (rows ++ [blankRow])%list)
                      (rowsAfter page)
  | None => page
  end.

(** The last row of the list once [applyTemplate] has filled it in from
    [attr]. *)
Definition filledRow (attr : Attribute) : AttributeRow :=
  mkRow (Some (inputValue (attr_name attr)))
        (Some (selectValue (attr_type attr)))
        (Some (inputValue (Js.templateString (attr_description attr)))).

(** [container.innerHTML = ''] under [if (container)]. *)
Definition clearList (page : GeneratorPage) : GeneratorPage :=
  match attributesList page with
  | Some _ => mkGeneratorPage (rowsBefore page) (Some []) (rowsAfter page)
  | None => page
  end.

Definition pushAttribute (attr : Attribute) (app : App) : App :=
  mkApp (currentSection app) (currentWizardStep app)
        (currentDataTypeStep app) (attributes app ++ [attr])%list
        (savedConfigs app).

(** The outcome of [applyTemplate]: the application and the page
    afterwards, the notification shown if any, and whether the method
    ended in a [TypeError]. *)
Record Applied := mkApplied {
  appAfter : App;
  pageAfter : GeneratorPage;
  toastShown : option (string * string);
  threwError : bool
}.

(** One pass of the [forEach] on a page that has the list, whose rows
    are [rows]: the attribute is pushed, a row is added, the last row
    is filled in. *)
Definition applyAttribute (state : App * list AttributeRow)
    (attr : Attribute) : App * list AttributeRow :=
  (pushAttribute attr (fst state), (snd state ++ [filledRow attr])%list).

(** [applyTemplate(key)]. *)
Definition applyTemplate (key : string) (page : GeneratorPage) (app : App)
    : Applied :=
  match lookup templates key with
  | Absent => mkApplied app page None false
  | Inherited => mkApplied app (clearList page) None true
  | Own template =>
      match attributesList page with
      | Some _ =>
          let '(app', rows) :=
            fold_left applyAttribute (gt_attributes template) (app, []) in
          mkApplied app'
            (mkGeneratorPage (rowsBefore page) (Some rows) (rowsAfter page))
            (Some ("Applied " ++ key ++ " template", "info")) false
      | None =>
          match gt_attributes template with
          | [] =>
              mkApplied app page
                (Some ("Applied " ++ key ++ " template", "info")) false
          | attr :: _ => mkApplied (pushAttribute attr app) page None true
          end
      end
  end.

End Generator.

(* ================================================================== *)
(** * Part III: proofs *)
(* ================================================================== *)

(** ** Strings *)

Section StringFacts.

Lemma append_empty_r (s : string) : s ++ EmptyString = s.
Proof. induction s as [|c s IH]; simpl; [reflexivity | now rewrite IH]. Qed.

Lemma append_assoc (a b c : string) : (a ++ b) ++ c = a ++ b ++ c.
Proof. induction a as [|x a IH]; simpl; [reflexivity | now rewrite IH]. Qed.

Lemma truthy_eqb (s : string) : Js.truthy s = negb (s =? EmptyString).
Proof. now destruct s. Qed.

Lemma orElse_empty (v : option string) :
  Js.orElse v EmptyString = Spec.fieldOrEmpty v.
Proof. destruct v as [[|c s]|]; reflexivity. Qed.

Lemma startsWith_iff (s p : string) :
  Js.startsWith s p = true <-> exists rest, s = p ++ rest.
Proof.
  revert s; induction p as [|a p IH]; intros s; simpl.
  - split; [intros _; now exists s | reflexivity].
  - destruct s as [|b s].
    + split; [discriminate | intros [rest H]; discriminate].
    + rewrite andb_true_iff, Ascii.eqb_eq, IH. split.
      * intros [-> [rest ->]]. now exists rest.
      * intros [rest H]. injection H as -> ->. split; [reflexivity | now exists rest].
Qed.

Lemma includes_iff (s needle : string) :
  Js.includes s needle = true <->
  exists before rest, s = before ++ needle ++ rest.
Proof.
  induction s as [|c s IH]; simpl; rewrite orb_true_iff, startsWith_iff.
  - split.
    + intros [[rest H] | H]; [| discriminate].
      now exists EmptyString, rest.
    + intros [[|x before] [rest H]]; [left; now exists rest | discriminate].
  - rewrite IH. split.
    + intros [[rest H] | [before [rest H]]].
      * now exists EmptyString, rest.
      * exists (String c before), rest. simpl. now rewrite H.
    + intros [[|x before] [rest H]].
      * left. now exists rest.
      * right. simpl in H. injection H as -> ->. now exists before, rest.
Qed.

Lemma toLowerCase_app (a b : string) :
  Js.toLowerCase (a ++ b) = Js.toLowerCase a ++ Js.toLowerCase b.
Proof. induction a as [|c a IH]; simpl; [reflexivity | now rewrite IH]. Qed.

(** A split of the lower-cased text comes from a split of the text. *)
Lemma toLowerCase_split (s a b : string) :
  Js.toLowerCase s = a ++ b ->
  exists s1 s2, s = s1 ++ s2 /\ Js.toLowerCase s1 = a /\ Js.toLowerCase s2 = b.
Proof.
  revert s; induction a as [|x a IH]; intros s H.
  - exists EmptyString, s. now simpl in *.
  - destruct s as [|c s]; simpl in H; [discriminate |].
    injection H as Hx H. destruct (IH s H) as (s1 & s2 & -> & <- & <-).
    exists (String c s1), s2. simpl. now rewrite Hx.
Qed.

(** The test of the code, [text.toLowerCase().includes(term.toLowerCase())],
    decides the case-insensitive substring relation. *)
Lemma includes_lower_iff (text search : string) :
  Js.includes (Js.toLowerCase text) (Js.toLowerCase search) = true <->
  Spec.containsIgnoringCase text search.
Proof.
  rewrite includes_iff. unfold Spec.containsIgnoringCase. split.
  - intros (before & rest & H).
    apply toLowerCase_split in H as (s1 & s23 & -> & _ & H).
    apply toLowerCase_split in H as (s2 & s3 & -> & H & _).
    now exists s1, s2, s3.
  - intros (before & stretch & rest & -> & H).
    exists (Js.toLowerCase before), (Js.toLowerCase rest).
    now rewrite !toLowerCase_app, H.
Qed.

End StringFacts.

(** ** The catalog *)

Lemma matchesSearch_iff (search : string) (item : RefItem) :
  matchesSearch search item = true <-> Spec.entryMatches search item.
Proof.
  unfold matchesSearch, Spec.entryMatches.
  now rewrite !orb_true_iff, !includes_lower_iff, or_assoc.
Qed.

Lemma filter_all {A} (keep : A -> bool) (l : list A) :
  (forall x, keep x = true) -> filter keep l = l.
Proof.
  intros H; induction l as [|x l IH]; simpl; [reflexivity |].
  now rewrite H, IH.
Qed.

(** C7: with no filter the catalog comes back whole, its 31 entries in the
    order of their declaration, and that is what is rendered; with a search
    text the entries kept are exactly those whose name, description or
    category text contains it as a case-insensitive substring, in the same
    order; the search text [digital] keeps the six entries of the digital
    category and nothing else. *)
Theorem catalog_list_search :
  filteredData "all" EmptyString = allData /\
  List.length allData = 31%nat /\
  (forall name category description rows format app,
     effects (displayFilteredData
                (mkDocument name category description rows format true)
                "all" EmptyString app)
     = [RenderReferenceCards allData]) /\
  (forall search,
     exists keep : RefItem -> bool,
       filteredData "all" search = filter keep allData /\
       forall item, keep item = true <-> Spec.entryMatches search item) /\
  filteredData "all" "digital" = getReferenceDataByFilter "digital" /\
  map item_name (filteredData "all" "digital")
  = ["DI"; "DO"; "DI_WORD"; "DO_WORD"; "DI_DWORD"; "DO_DWORD"].
Proof.
  repeat split; try reflexivity.
  intros search. exists (matchesSearch search). split.
  - unfold filteredData. change (getReferenceDataByFilter "all") with allData.
    destruct search as [|c search]; simpl Js.truthy; cbv iota; [| reflexivity].
    symmetry. apply filter_all. intros item. apply matchesSearch_iff.
    left. exists EmptyString, EmptyString, (item_name item). now split.
  - intros item. apply matchesSearch_iff.
Qed.

(** ** The wizard *)

Lemma wizardStep_in_range (op : WizardOp) (app : App) :
  stepInRange app -> stepInRange (wizardStep op app).
Proof.
  unfold stepInRange, wizardStep, nextWizardStep, previousWizardStep.
  intros H. destruct op.
  - destruct (Z.ltb_spec (currentWizardStep app) 4); simpl; lia.
  - rewrite Z.gtb_ltb.
    destruct (Z.ltb_spec 1 (currentWizardStep app)); simpl; lia.
Qed.

Lemma runWizard_in_range (ops : list WizardOp) :
  forall app, stepInRange app -> stepInRange (runWizard ops app).
Proof.
  induction ops as [|op ops IH]; intros app H; simpl; [exact H |].
  apply IH, wizardStep_in_range, H.
Qed.

(** C10: the wizard step counter starts at 1; after any sequence of
    [nextWizardStep] and [previousWizardStep] it lies between 1 and 4; at
    step 4 [nextWizardStep] changes nothing and redraws nothing, and so
    does [previousWizardStep] at step 1. *)
Theorem wizard_step_stays_in_range :
  currentWizardStep constructed = 1%Z /\
  (forall ops,
     (1 <= currentWizardStep (runWizard ops constructed) <= 4)%Z) /\
  (forall app,
     nextWizardStep (setWizardStep 4 app)
     = mkOutcome JsUndefined (setWizardStep 4 app) []) /\
  (forall app,
     previousWizardStep (setWizardStep 1 app)
     = mkOutcome JsUndefined (setWizardStep 1 app) []).
Proof.
  split; [reflexivity |]. split; [| split; reflexivity].
  intros ops. apply (runWizard_in_range ops constructed).
  unfold stepInRange; simpl; lia.
Qed.

(** ** The validation score *)

Lemma tally_fold (results : list ValidationResult) :
  forall critical warnings,
    fold_left tallyStep results (critical, warnings)
    = ((critical + Z.of_nat (Spec.errorCount results))%Z,
       (warnings + Z.of_nat (Spec.warningCount results))%Z).
Proof.
  unfold Spec.errorCount, Spec.warningCount.
  induction results as [|r results IH]; intros critical warnings; simpl.
  - now rewrite !Z.add_0_r.
  - rewrite IH.
    destruct (result_status r =? "warning"), (result_status r =? "error");
      simpl List.length; f_equal; lia.
Qed.

Lemma tally_counts (results : list ValidationResult) :
  tally results = (Z.of_nat (Spec.errorCount results),
                   Z.of_nat (Spec.warningCount results)).
Proof. unfold tally. now rewrite tally_fold. Qed.

Lemma validationScore_counts (results : list ValidationResult) :
  validationScore results
  = Spec.score (Spec.errorCount results) (Spec.warningCount results).
Proof.
  unfold validationScore. rewrite tally_counts.
  unfold scoreOf, Spec.score. f_equal. lia.
Qed.

Lemma errorCount_app (a b : list ValidationResult) :
  Spec.errorCount (a ++ b) = (Spec.errorCount a + Spec.errorCount b)%nat.
Proof. unfold Spec.errorCount. now rewrite filter_app, length_app. Qed.

Lemma warningCount_app (a b : list ValidationResult) :
  Spec.warningCount (a ++ b)
  = (Spec.warningCount a + Spec.warningCount b)%nat.
Proof. unfold Spec.warningCount. now rewrite filter_app, length_app. Qed.

(** C6: the score of a run is [max(0, 100 - 20*errorCount -
    5*warningCount)]; it lies between 0 and 100; findings added to a run
    never raise it; the run the code ships scores 80. *)
Theorem validation_score_formula :
  (forall results,
     validationScore results
     = Z.max 0 (100 - 20 * Z.of_nat (Spec.errorCount results)
                    - 5 * Z.of_nat (Spec.warningCount results))) /\
  (forall results, (0 <= validationScore results <= 100)%Z) /\
  (forall results more,
     (validationScore (results ++ more) <= validationScore results)%Z) /\
  (forall before more rest,
     (validationScore (before ++ more ++ rest)
      <= validationScore (before ++ rest))%Z) /\
  loadValidationData = (80%Z, 0%Z, 4%Z, 16%Z).
Proof.
  split; [| split; [| split; [| split]]].
  - apply validationScore_counts.
  - intros results. rewrite validationScore_counts. unfold Spec.score. lia.
  - intros results more.
    rewrite !validationScore_counts, errorCount_app, warningCount_app.
    unfold Spec.score. lia.
  - intros before more rest.
    rewrite !validationScore_counts, !errorCount_app, !warningCount_app.
    unfold Spec.score. lia.
  - reflexivity.
Qed.

(** ** The form collector *)

Lemma collectRow_filled (row : AttributeRow) :
  collectRow row
  = if Spec.rowFilled row then Some (Spec.rowAttribute row) else None.
Proof.
  unfold collectRow, Spec.rowFilled, Spec.rowAttribute.
  destruct row as [[name|] [type|] description]; simpl; try reflexivity.
  now rewrite <- !truthy_eqb.
Qed.

Lemma collectRows_filter (rows : list AttributeRow) :
  collectRows rows = map Spec.rowAttribute (filter Spec.rowFilled rows).
Proof.
  induction rows as [|row rows IH]; simpl; [reflexivity |].
  rewrite collectRow_filled. destruct (Spec.rowFilled row); simpl; now rewrite IH.
Qed.

Lemma collectRows_app (a b : list AttributeRow) :
  collectRows (a ++ b) = (collectRows a ++ collectRows b)%list.
Proof. now rewrite !collectRows_filter, filter_app, map_app. Qed.

(** C9: [collectTemplateData] is total; name, category and description
    are the values of their fields, the empty string for a missing field;
    no rows give no attributes; a row with a non-empty name and a non-empty
    type gives exactly one attribute, in its place, and any other row gives
    none. *)
Theorem collect_never_fails :
  (forall doc,
     td_name (collectTemplateData doc) = Spec.fieldOrEmpty (templateName doc) /\
     td_category (collectTemplateData doc)
     = Spec.fieldOrEmpty (templateCategory doc) /\
     td_description (collectTemplateData doc)
     = Spec.fieldOrEmpty (templateDescription doc) /\
     td_attributes (collectTemplateData doc)
     = map Spec.rowAttribute (filter Spec.rowFilled (attributeRows doc))) /\
  (forall format grid,
     collectTemplateData (mkDocument None None None [] format grid)
     = mkTemplateData EmptyString EmptyString EmptyString []) /\
  (forall before row rest,
     collectRows (before ++ row :: rest)
     = (collectRows before ++
        (if Spec.rowFilled row then [Spec.rowAttribute row] else []) ++
        collectRows rest)%list).
Proof.
  split; [| split].
  - intros doc. unfold collectTemplateData; simpl.
    now rewrite !orElse_empty, collectRows_filter.
  - reflexivity.
  - intros before row rest. rewrite collectRows_app. simpl.
    rewrite collectRow_filled. now destruct (Spec.rowFilled row).
Qed.

(** ** The store *)

(** C1: when the collected name is empty or no attribute was collected,
    [saveTemplate] stops with an error notification and leaves the
    application object, the saved configurations with it, as it was. *)
Theorem save_rejects_incomplete (doc : Document) (now stamp : Z) (app : App) :
  td_name (collectTemplateData doc) = EmptyString \/
  td_attributes (collectTemplateData doc) = [] ->
  after (saveTemplate doc now stamp app) = app /\
  savedConfigs (after (saveTemplate doc now stamp app)) = savedConfigs app /\
  returned (saveTemplate doc now stamp app) = JsUndefined /\
  exists message,
    effects (saveTemplate doc now stamp app) = [ShowToast message "error"].
Proof.
  unfold saveTemplate. generalize (collectTemplateData doc) as data.
  intros [[|c name] category description attrs]; simpl; intros H.
  - repeat split. now eexists.
  - destruct H as [H | H]; [discriminate |]. subst attrs. simpl.
    repeat split. now eexists.
Qed.

Lemma save_rejects_incomplete_witness :
  after (saveTemplate emptyNameDocument 1000 1000 constructed) = constructed /\
  savedConfigs (after (saveTemplate emptyNameDocument 1000 1000 constructed))
  = savedConfigs constructed /\
  returned (saveTemplate emptyNameDocument 1000 1000 constructed) = JsUndefined /\
  exists message,
    effects (saveTemplate emptyNameDocument 1000 1000 constructed)
    = [ShowToast message "error"].
Proof.
  apply (save_rejects_incomplete emptyNameDocument 1000 1000 constructed).
  left. reflexivity.
Defined.

Lemma string_append_inj (p a b : string) : p ++ a = p ++ b -> a = b.
Proof.
  induction p as [|c p IH]; simpl; intros H; [exact H |].
  injection H as H. now apply IH.
Qed.

Lemma numberToString_inj (m n : Z) :
  Js.numberToString m = Js.numberToString n -> m = n.
Proof.
  unfold Js.numberToString. intros H.
  apply DecimalZ.to_int_inj.
  assert (E : Some (Z.to_int m) = Some (Z.to_int n))
    by now rewrite <- !NilEmpty.isi, H.
  now injection E.
Qed.

(** Two clock readings that give the same id are the same reading. *)
Lemma configId_inj (m n : Z) : configId m = configId n -> m = n.
Proof.
  unfold configId. intros H.
  now apply numberToString_inj, (string_append_inj "template-").
Qed.

Lemma savedBefore_fresh (now : Z) (configs : list SavedConfig) :
  Spec.savedBefore now configs -> ~ In (configId now) (map cfg_id configs).
Proof.
  unfold Spec.savedBefore. rewrite Forall_forall, in_map_iff.
  intros H (config & Hid & Hin).
  destruct (H config Hin) as (t & Ht & Hneq).
  apply Hneq, configId_inj. congruence.
Qed.

(** Saving and deleting keep every id of the list made from a clock
    reading, and a later reading different from all of them. *)
Lemma savedBefore_save (doc : Document) (now stamp later : Z) (app : App) :
  Spec.savedBefore later (savedConfigs app) -> now <> later ->
  Spec.savedBefore later (savedConfigs (after (saveTemplate doc now stamp app))).
Proof.
  intros H Hneq. unfold saveTemplate.
  destruct (negb _); [exact H |]. destruct (_ =? _)%nat; [exact H |].
  simpl. constructor; [| exact H]. exists now. now split.
Qed.

Lemma savedBefore_delete (id : string) (confirmed grid : bool) (later : Z)
    (app : App) :
  Spec.savedBefore later (savedConfigs app) ->
  Spec.savedBefore later
    (savedConfigs (after (deleteConfig id confirmed grid app))).
Proof.
  intros H. unfold deleteConfig. destruct confirmed; [| exact H]. simpl.
  unfold Spec.savedBefore in *. rewrite Forall_forall in *.
  intros config Hin. apply filter_In in Hin. now apply H.
Qed.

(** C3, as the code has it: for a collected record with a name and at
    least one attribute, [saveTemplate] makes the id [template-<now>]
    from the clock reading, puts the new configuration (that id, the
    record's name, category and description, the number of its attributes)
    at the head of the saved list and keeps the rest; the id differs from
    every saved id that was made from another clock reading; nothing is
    returned to the caller. *)
Theorem save_prepends_clock_id (doc : Document) (now stamp : Z) (app : App) :
  td_name (collectTemplateData doc) <> EmptyString ->
  td_attributes (collectTemplateData doc) <> [] ->
  exists config,
    savedConfigs (after (saveTemplate doc now stamp app))
    = config :: savedConfigs app /\
    cfg_id config = configId now /\
    cfg_name config = td_name (collectTemplateData doc) /\
    cfg_category config = td_category (collectTemplateData doc) /\
    cfg_description config = td_description (collectTemplateData doc) /\
    cfg_attributes config = List.length (td_attributes (collectTemplateData doc)) /\
    (forall saved t,
       In saved (savedConfigs app) ->
       cfg_id saved = configId t -> t <> now ->
       cfg_id saved <> cfg_id config) /\
    returned (saveTemplate doc now stamp app) = JsUndefined.
Proof.
  unfold saveTemplate. generalize (collectTemplateData doc) as data.
  intros data Hname Hattrs. exists (newConfig data now stamp).
  destruct data as [[|c name] category description [|a attrs]];
    try (now elim Hname); try (now elim Hattrs).
  simpl. repeat split.
  intros saved t _ Hid Hneq E. apply Hneq, configId_inj. congruence.
Qed.

Lemma save_prepends_clock_id_witness :
  exists config,
    savedConfigs (after (saveTemplate pumpDocument 1000 1000 pumpSaved))
    = config :: savedConfigs pumpSaved /\
    cfg_id config = configId 1000 /\
    cfg_name config = td_name (collectTemplateData pumpDocument) /\
    cfg_category config = td_category (collectTemplateData pumpDocument) /\
    cfg_description config = td_description (collectTemplateData pumpDocument) /\
    cfg_attributes config
    = List.length (td_attributes (collectTemplateData pumpDocument)) /\
    (forall saved t,
       In saved (savedConfigs pumpSaved) ->
       cfg_id saved = configId t -> t <> 1000%Z ->
       cfg_id saved <> cfg_id config) /\
    returned (saveTemplate pumpDocument 1000 1000 pumpSaved) = JsUndefined.
Proof.
  apply (save_prepends_clock_id pumpDocument 1000 1000 pumpSaved).
  - simpl. discriminate.
  - simpl. discriminate.
Defined.

(** C3 as stated fails: [saveTemplate] hands nothing back to its caller,
    and two saves at one clock reading get one id. *)
Lemma save_as_stated_fails :
  ~ Spec.saveAsStated pumpDocument 1000 1000 pumpSaved /\
  returned (saveTemplate pumpDocument 1000 1000 pumpSaved) = JsUndefined /\
  map cfg_id (savedConfigs (after (saveTemplate pumpDocument 1000 1000 pumpSaved)))
  = ["template-1000"; "template-1000"].
Proof.
  split; [| split; reflexivity].
  intros (id & config & Hreturned & _). discriminate Hreturned.
Qed.

(** C8: after [PumpA] was saved, [filterSavedConfigs] with the search text
    [PumpA] hands back [undefined], not the one matching record: the method
    writes its argument to the console and does nothing else, whatever the
    search text and the saved list. *)
Theorem find_only_logs :
  map cfg_name (savedConfigs pumpSaved) = ["PumpA"] /\
  returned (filterSavedConfigs "PumpA" pumpSaved) = JsUndefined /\
  effects (filterSavedConfigs "PumpA" pumpSaved)
  = [ConsoleLog "Filtering saved configs:" "PumpA"] /\
  (forall searchTerm app,
     returned (filterSavedConfigs searchTerm app) = JsUndefined /\
     after (filterSavedConfigs searchTerm app) = app).
Proof. repeat split. Qed.

(** ** The serializer *)

Lemma concat_empty_cons (x : string) (l : list string) :
  String.concat EmptyString (x :: l) = x ++ String.concat EmptyString l.
Proof. destruct l; simpl; [now rewrite append_empty_r | reflexivity]. Qed.

(** The loop [content += row] appends the rows in order. *)
Lemma csv_fold (rows : list Attribute) :
  forall content,
    fold_left (fun content attr => content ++ csvRow attr) rows content
    = content ++ String.concat EmptyString (map csvRow rows).
Proof.
  induction rows as [|a rows IH]; intros content.
  - simpl. now rewrite append_empty_r.
  - simpl fold_left. rewrite IH. simpl map.
    now rewrite concat_empty_cons, append_assoc.
Qed.

Lemma lineCount_app (a b : string) :
  Spec.lineCount (a ++ b) = (Spec.lineCount a + Spec.lineCount b)%nat.
Proof.
  induction a as [|c a IH]; simpl; [reflexivity |].
  destruct (Ascii.eqb c JSON.LF); simpl; now rewrite IH.
Qed.

Lemma lineCount_csvRow (attr : Attribute) :
  Spec.lineCount (csvRow attr) = S (Spec.fieldLineFeeds attr).
Proof.
  unfold csvRow, Spec.fieldLineFeeds. rewrite !lineCount_app. simpl. lia.
Qed.

Lemma lineCount_rows (rows : list Attribute) :
  Spec.lineCount (String.concat EmptyString (map csvRow rows))
  = (List.length rows + list_sum (map Spec.fieldLineFeeds rows))%nat.
Proof.
  induction rows as [|a rows IH]; [reflexivity |].
  simpl map. rewrite concat_empty_cons, lineCount_app, lineCount_csvRow, IH.
  simpl. lia.
Qed.

(** The text of the [csv] case: the header row, then one row per
    attribute in order, each field between double quotes with nothing
    done to the field itself; one line feed for the header, one per
    attribute and those the fields hold; the name, category and
    description of the record do not enter the text. *)
Lemma csv_header_then_rows :
  forall data,
    toCSV data
    = "Name,Type,Description" ++ JSON.chr JSON.LF ++
      String.concat EmptyString
        (map (fun attr =>
                JSON.chr JSON.DQUOTE ++ attr_name attr ++
                JSON.chr JSON.DQUOTE ++ "," ++
                JSON.chr JSON.DQUOTE ++ attr_type attr ++
                JSON.chr JSON.DQUOTE ++ "," ++
                JSON.chr JSON.DQUOTE ++
                Js.templateString (attr_description attr) ++
                JSON.chr JSON.DQUOTE ++ JSON.chr JSON.LF)
             (td_attributes data)) /\
    Spec.lineCount (toCSV data)
    = (S (List.length (td_attributes data)) +
       list_sum (map Spec.fieldLineFeeds (td_attributes data)))%nat /\
    forall name category description,
      toCSV (mkTemplateData name category description (td_attributes data))
      = toCSV data.
Proof.
  intros data. split; [| split].
  - unfold toCSV. rewrite csv_fold. unfold csvHeader.
    now rewrite append_assoc.
  - unfold toCSV. rewrite csv_fold, lineCount_app, lineCount_rows.
    reflexivity.
  - reflexivity.
Qed.

(** C5: with a double quote typed in a description, the [csv] export
    hands [downloadFile] a text, under a name ending in [.csv] and the
    type [text/csv], in which the field is put between double quotes but
    the quote inside it is not escaped: the row reads [Bore], [AI] and
    then a field that ends after the 5.  The export is not the header
    followed by rows of double-quote-escaped fields that the
    specification words. *)
Theorem csv_quote_not_escaped :
  collectTemplateData inchDocument = inchData /\
  (forall app,
     effects (downloadExport inchDocument app)
     = [DownloadFile (mkDownload (toCSV inchData) "Pipe.csv" "text/csv");
        ShowToast "Template exported successfully" "success"]) /\
  toCSV inchData
  = "Name,Type,Description" ++ JSON.chr JSON.LF ++
    JSON.chr JSON.DQUOTE ++ "Bore" ++ JSON.chr JSON.DQUOTE ++ "," ++
    JSON.chr JSON.DQUOTE ++ "AI" ++ JSON.chr JSON.DQUOTE ++ "," ++
    JSON.chr JSON.DQUOTE ++ "5" ++ JSON.chr JSON.DQUOTE ++ " pipe" ++
    JSON.chr JSON.DQUOTE ++ JSON.chr JSON.LF /\
  Spec.escapedRow (mkAttribute "Bore" "AI"
                     (Some ("5" ++ JSON.chr JSON.DQUOTE ++ " pipe")))
  = JSON.chr JSON.DQUOTE ++ "Bore" ++ JSON.chr JSON.DQUOTE ++ "," ++
    JSON.chr JSON.DQUOTE ++ "AI" ++ JSON.chr JSON.DQUOTE ++ "," ++
    JSON.chr JSON.DQUOTE ++ "5" ++ JSON.chr JSON.DQUOTE ++
    JSON.chr JSON.DQUOTE ++ " pipe" ++
    JSON.chr JSON.DQUOTE ++ JSON.chr JSON.LF /\
  ~ Spec.csvAsStated inchData.
Proof.
  split; [reflexivity |]. split; [reflexivity |].
  split; [reflexivity |]. split; [reflexivity |].
  intros [H _]. vm_compute in H. discriminate H.
Qed.

(** C2: for the format [xml] (and any format other than [json] and [csv])
    the export is the text of the [json] case under a name ending in
    [.xml] and the type [application/xml]; it starts with a brace, which
    no XML document does. *)
Theorem xml_export_is_json_text :
  (forall data,
     exportFile data "xml"
     = mkDownload (toJSON data)
                  (Js.strOr (td_name data) "template" ++ ".xml")
                  "application/xml") /\
  (forall data,
     exists rest, dl_content (exportFile data "xml") = String "{" rest) /\
  (forall app,
     effects (downloadExport pumpDocument app)
     = [DownloadFile
          (mkDownload (toJSON (collectTemplateData pumpDocument))
                      "PumpA.xml" "application/xml");
        ShowToast "Template exported successfully" "success"]).
Proof.
  split; [| split].
  - reflexivity.
  - intros data. eexists. reflexivity.
  - reflexivity.
Qed.

(** ** JSON text round trip *)

Section JSONFacts.

Import JSON Measure.

(** Induction on a value with the hypothesis on every element and on the
    value of every member. *)
Lemma value_nested_ind (P : value -> Prop) :
  P Null -> (forall b, P (Bool b)) -> (forall s, P (Str s)) ->
  (forall elements, Forall P elements -> P (Arr elements)) ->
  (forall members, Forall (fun m => P (snd m)) members -> P (Obj members)) ->
  forall v, P v.
Proof.
  intros HNull HBool HStr HArr HObj.
  fix self 1. intros [| b | s | elements | members].
  - exact HNull.
  - apply HBool.
  - apply HStr.
  - apply HArr. induction elements as [|x elements IH]; constructor;
      [apply self | exact IH].
  - apply HObj. induction members as [|m members IH]; constructor;
      [apply self | exact IH].
Qed.

Lemma parseStringBody_unit (c : ascii) (r : string) :
  parseStringBody (quoteUnit c ++ r)
  = match parseStringBody r with
    | Some (str, rest) => Some (String c str, rest)
    | None => None
    end.
Proof.
  destruct c as [[|] [|] [|] [|] [|] [|] [|] [|]]; reflexivity.
Qed.

Lemma parseStringBody_quoteUnits (s rest : string) :
  parseStringBody (quoteUnits s ++ String DQUOTE rest) = Some (s, rest).
Proof.
  induction s as [|c s IH]; [reflexivity |].
  simpl quoteUnits. now rewrite append_assoc, parseStringBody_unit, IH.
Qed.

Lemma quoted_text (s rest : string) :
  QuoteJSONString s ++ rest
  = String DQUOTE (quoteUnits s ++ String DQUOTE rest).
Proof.
  unfold QuoteJSONString, chr. simpl. now rewrite append_assoc.
Qed.

Lemma allWhite_app (a b : string) :
  allWhite (a ++ b) = allWhite a && allWhite b.
Proof.
  induction a as [|c a IH]; simpl; [reflexivity |].
  now rewrite IH, andb_assoc.
Qed.

Lemma allWhite_spaces (n : nat) : allWhite (spaces n) = true.
Proof. induction n; simpl; auto. Qed.

Lemma skipWhiteSpace_app (w s : string) :
  allWhite w = true -> skipWhiteSpace (w ++ s) = skipWhiteSpace s.
Proof.
  induction w as [|c w IH]; simpl; [reflexivity |].
  intros H. apply andb_true_iff in H as [Hc Hw]. now rewrite Hc, IH.
Qed.

Lemma skipWhiteSpace_value (s : string) :
  startsValue s -> skipWhiteSpace s = s.
Proof. destruct s as [|c s]; simpl; [easy |]. now intros [-> _]. Qed.

Lemma startsValue_app (s rest : string) :
  startsValue s -> startsValue (s ++ rest).
Proof. now destruct s. Qed.

Lemma allWhite_padding (gap indent : string) :
  allWhite indent = true -> allWhite (padding gap indent) = true.
Proof. unfold padding. destruct (isEmpty gap); simpl; auto. Qed.

(** The text of a value starts with the first character of a value. *)
Lemma serialize_startsValue (gap indent : string) (v : value) :
  startsValue (serialize gap indent v).
Proof.
  destruct v as [| [|] | s | [|x elements] | [|m members]]; simpl;
    unfold wrap; simpl; try destruct (isEmpty gap); simpl; auto.
Qed.

Lemma memberText_startsValue (gap indent : string) (m : string * value) :
  startsValue (memberText gap indent m).
Proof. simpl. auto. Qed.

(** [wrap] on a list that is not empty: the opening bracket, then the
    members, each after the padding and with commas between them, then
    the padding of the enclosing level and the closing bracket. *)
Lemma wrap_padding (gap stepback indent opening closing p : string)
    (partial : list string) :
  wrap gap stepback indent opening closing (p :: partial)
  = opening ++ padding gap indent ++
    Js.join ("," ++ padding gap indent) (p :: partial) ++
    padding gap stepback ++ closing.
Proof.
  unfold wrap, padding. destruct (isEmpty gap); [reflexivity |].
  now rewrite !append_assoc.
Qed.


Lemma serialize_array (gap indent : string) (x : value)
    (elements : list value) :
  serialize gap indent (Arr (x :: elements))
  = "[" ++ padding gap (indent ++ gap) ++
    Js.join ("," ++ padding gap (indent ++ gap))
            (map (serialize gap (indent ++ gap)) (x :: elements)) ++
    padding gap indent ++ "]".
Proof. apply wrap_padding. Qed.

Lemma serialize_object (gap indent : string) (m : string * value)
    (members : list (string * value)) :
  serialize gap indent (Obj (m :: members))
  = "{" ++ padding gap (indent ++ gap) ++
    Js.join ("," ++ padding gap (indent ++ gap))
            (map (memberText gap (indent ++ gap)) (m :: members)) ++
    padding gap indent ++ "}".
Proof. apply wrap_padding. Qed.

Lemma join_cons2 (sep p q : string) (parts : list string) :
  Js.join sep (p :: q :: parts) = p ++ sep ++ Js.join sep (q :: parts).
Proof. reflexivity. Qed.

Lemma join_startsValue (sep p : string) (parts : list string) :
  startsValue p -> startsValue (Js.join sep (p :: parts)).
Proof. destruct parts; [easy | apply startsValue_app]. Qed.

Lemma literal_closing_none (s : string) :
  startsValue s -> literal "]" s = None /\ literal "}" s = None.
Proof.
  destruct s as [|c s]; simpl; [easy |]. now intros (_ & -> & ->).
Qed.

Lemma not_closing (pre s : string) :
  allWhite pre = true -> startsValue s ->
  literal "]" (skipWhiteSpace (pre ++ s)) = None /\
  literal "}" (skipWhiteSpace (pre ++ s)) = None.
Proof.
  intros Hpre Hs. rewrite (skipWhiteSpace_app pre _ Hpre).
  rewrite (skipWhiteSpace_value s Hs). now apply literal_closing_none.
Qed.

(** The equations of the parser at a positive fuel. *)
Lemma parseElements_S (fuel : nat) (s : string) :
  parseElements (S fuel) s
  = match parseValue fuel s with
    | None => None
    | Some (v, r) =>
        match literal "," (skipWhiteSpace r) with
        | Some r2 =>
            match parseElements fuel r2 with
            | Some (vs, rest) => Some (v :: vs, rest)
            | None => None
            end
        | None =>
            match literal "]" (skipWhiteSpace r) with
            | Some rest => Some ([v], rest)
            | None => None
            end
        end
    end.
Proof. reflexivity. Qed.

Lemma parseMembers_S (fuel : nat) (s : string) :
  parseMembers (S fuel) s
  = match literal (chr DQUOTE) (skipWhiteSpace s) with
    | None => None
    | Some r =>
        match parseStringBody r with
        | None => None
        | Some (key, r1) =>
            match literal ":" (skipWhiteSpace r1) with
            | None => None
            | Some r2 =>
                match parseValue fuel r2 with
                | None => None
                | Some (v, r3) =>
                    match literal "," (skipWhiteSpace r3) with
                    | Some r5 =>
                        match parseMembers fuel r5 with
                        | Some (ms, rest) => Some ((key, v) :: ms, rest)
                        | None => None
                        end
                    | None =>
                        match literal "}" (skipWhiteSpace r3) with
                        | Some rest => Some ([(key, v)], rest)
                        | None => None
                        end
                    end
                end
            end
        end
    end.
Proof. reflexivity. Qed.

Lemma parseValue_array (fuel : nat) (w r : string) :
  allWhite w = true ->
  parseValue (S fuel) (w ++ String "[" r)
  = match literal "]" (skipWhiteSpace r) with
    | Some rest => Some (Arr [], rest)
    | None =>
        match parseElements fuel r with
        | Some (elements, rest) => Some (Arr elements, rest)
        | None => None
        end
    end.
Proof.
  intros Hw. cbn [parseValue]. rewrite (skipWhiteSpace_app w _ Hw).
  reflexivity.
Qed.

Lemma parseValue_object (fuel : nat) (w r : string) :
  allWhite w = true ->
  parseValue (S fuel) (w ++ String "{" r)
  = match literal "}" (skipWhiteSpace r) with
    | Some rest => Some (Obj [], rest)
    | None =>
        match parseMembers fuel r with
        | Some (members, rest) => Some (Obj members, rest)
        | None => None
        end
    end.
Proof.
  intros Hw. cbn [parseValue]. rewrite (skipWhiteSpace_app w _ Hw).
  reflexivity.
Qed.

Lemma parseValue_string (fuel : nat) (w r : string) :
  allWhite w = true ->
  parseValue (S fuel) (w ++ String DQUOTE r)
  = match parseStringBody r with
    | Some (str, rest) => Some (Str str, rest)
    | None => None
    end.
Proof.
  intros Hw. cbn [parseValue]. rewrite (skipWhiteSpace_app w _ Hw).
  reflexivity.
Qed.

Lemma parseValue_literal (fuel : nat) (w rest : string) :
  allWhite w = true ->
  parseValue (S fuel) (w ++ "null" ++ rest) = Some (Null, rest) /\
  parseValue (S fuel) (w ++ "true" ++ rest) = Some (Bool true, rest) /\
  parseValue (S fuel) (w ++ "false" ++ rest) = Some (Bool false, rest).
Proof.
  intros Hw. cbn [parseValue]. rewrite !(skipWhiteSpace_app w _ Hw).
  split; [reflexivity | split; reflexivity].
Qed.

Lemma after_comma (r : string) :
  literal "," (skipWhiteSpace ("," ++ r)) = Some r.
Proof. reflexivity. Qed.

Lemma after_colon (r : string) :
  literal ":" (skipWhiteSpace (":" ++ r)) = Some r.
Proof. reflexivity. Qed.

Lemma after_quote (r : string) :
  literal (chr DQUOTE) (skipWhiteSpace (String DQUOTE r)) = Some r.
Proof. reflexivity. Qed.

Section Gap.

Variable gap : string.
Hypothesis gap_white : allWhite gap = true.

Lemma parseElements_join (indent pre post rest : string)
    (elements : list value) :
  allWhite indent = true -> allWhite pre = true -> allWhite post = true ->
  Forall (readsBack gap) elements -> elements <> [] ->
  forall fuel,
    elementsSize elements <= fuel ->
    parseElements fuel
      (pre ++ Js.join ("," ++ pre) (map (serialize gap indent) elements) ++
       post ++ "]" ++ rest)
    = Some (elements, rest).
Proof.
  intros Hindent Hpre Hpost Hall.
  induction Hall as [|x elements Hx Hall IH]; intros Hne fuel Hfuel;
    [now elim Hne |].
  unfold elementsSize in Hfuel. simpl in Hfuel.
  destruct fuel as [|fuel]; [lia |]. rewrite parseElements_S.
  destruct elements as [|y elements].
  - simpl map. simpl Js.join.
    rewrite (Hx indent fuel pre _ Hindent Hpre) by lia.
    rewrite (skipWhiteSpace_app post _ Hpost). reflexivity.
  - assert (Hx' : size x <= fuel) by lia.
    assert (Hrest : elementsSize (y :: elements) <= fuel)
      by (unfold elementsSize; lia).
    simpl map in *. rewrite join_cons2, !append_assoc.
    rewrite (Hx indent fuel pre _ Hindent Hpre Hx').
    now rewrite after_comma, IH.
Qed.

Lemma memberText_text (indent : string) (m : string * value) (rest : string) :
  memberText gap indent m ++ rest
  = String DQUOTE
      (quoteUnits (fst m) ++
       String DQUOTE
         (":" ++ (if isEmpty gap then EmptyString else " ") ++
          serialize gap indent (snd m) ++ rest)).
Proof.
  unfold memberText. now rewrite !append_assoc, quoted_text.
Qed.

Lemma parseMembers_join (indent pre post rest : string)
    (members : list (string * value)) :
  allWhite indent = true -> allWhite pre = true -> allWhite post = true ->
  Forall (fun m => readsBack gap (snd m)) members -> members <> [] ->
  forall fuel,
    membersSize members <= fuel ->
    parseMembers fuel
      (pre ++ Js.join ("," ++ pre) (map (memberText gap indent) members) ++
       post ++ "}" ++ rest)
    = Some (members, rest).
Proof.
  intros Hindent Hpre Hpost Hall.
  assert (Hsp : allWhite (if isEmpty gap then EmptyString else " ") = true)
    by now destruct (isEmpty gap).
  induction Hall as [|[key v] members Hm Hall IH]; intros Hne fuel Hfuel;
    [now elim Hne |].
  unfold membersSize in Hfuel. simpl in Hfuel, Hm.
  destruct fuel as [|fuel]; [lia |]. rewrite parseMembers_S.
  rewrite (skipWhiteSpace_app pre _ Hpre).
  assert (Hv : size v <= fuel) by lia.
  destruct members as [|m members].
  - simpl map. simpl Js.join. rewrite memberText_text. simpl fst; simpl snd.
    rewrite after_quote, parseStringBody_quoteUnits, after_colon.
    rewrite (Hm indent fuel _ _ Hindent Hsp Hv).
    rewrite (skipWhiteSpace_app post _ Hpost). reflexivity.
  - assert (Hrest : membersSize (m :: members) <= fuel)
      by (unfold membersSize; lia).
    simpl map in *. rewrite join_cons2, !append_assoc, memberText_text.
    simpl fst; simpl snd.
    rewrite after_quote, parseStringBody_quoteUnits, after_colon.
    rewrite (Hm indent fuel _ _ Hindent Hsp Hv).
    now rewrite after_comma, IH.
Qed.

(** Every value is read back from its text. *)
Lemma serialize_readsBack (v : value) : readsBack gap v.
Proof.
  induction v as [| b | s | elements IH | members IH] using value_nested_ind;
    intros indent fuel w rest Hindent Hw Hfuel;
    (destruct fuel as [|fuel]; [simpl in Hfuel; lia |]).
  - apply (parseValue_literal fuel w rest Hw).
  - destruct b; apply (parseValue_literal fuel w rest Hw).
  - simpl serialize. rewrite quoted_text, (parseValue_string _ _ _ Hw).
    now rewrite parseStringBody_quoteUnits.
  - assert (Hin : allWhite (indent ++ gap) = true)
      by now rewrite allWhite_app, Hindent, gap_white.
    destruct elements as [|x elements].
    + change (serialize gap indent (Arr []) ++ rest)
        with (String "[" (String "]" rest)).
      now rewrite (parseValue_array fuel w _ Hw).
    + rewrite serialize_array.
      change ("[" ++ ?r) with (String "[" r).
      change (String "[" ?a ++ rest) with (String "[" (a ++ rest)).
      rewrite !append_assoc, (parseValue_array _ _ _ Hw).
      destruct (not_closing (padding gap (indent ++ gap))
                  (Js.join ("," ++ padding gap (indent ++ gap))
                     (map (serialize gap (indent ++ gap)) (x :: elements)) ++
                   padding gap indent ++ "]" ++ rest)) as [-> _].
      * now apply allWhite_padding.
      * apply startsValue_app, join_startsValue, serialize_startsValue.
      * rewrite parseElements_join; auto using allWhite_padding.
        -- discriminate.
        -- simpl in Hfuel. unfold elementsSize. simpl. lia.
  - assert (Hin : allWhite (indent ++ gap) = true)
      by now rewrite allWhite_app, Hindent, gap_white.
    destruct members as [|m members].
    + change (serialize gap indent (Obj []) ++ rest)
        with (String "{" (String "}" rest)).
      now rewrite (parseValue_object fuel w _ Hw).
    + rewrite serialize_object.
      change ("{" ++ ?r) with (String "{" r).
      change (String "{" ?a ++ rest) with (String "{" (a ++ rest)).
      rewrite !append_assoc, (parseValue_object _ _ _ Hw).
      destruct (not_closing (padding gap (indent ++ gap))
                  (Js.join ("," ++ padding gap (indent ++ gap))
                     (map (memberText gap (indent ++ gap)) (m :: members)) ++
                   padding gap indent ++ "}" ++ rest)) as [_ ->].
      * now apply allWhite_padding.
      * apply startsValue_app, join_startsValue, memberText_startsValue.
      * rewrite parseMembers_join; auto using allWhite_padding.
        -- discriminate.
        -- simpl in Hfuel. unfold membersSize. simpl. lia.
Qed.

Lemma length_app (a b : string) :
  String.length (a ++ b) = String.length a + String.length b.
Proof. induction a as [|c a IH]; simpl; [reflexivity | now rewrite IH]. Qed.

Lemma join_length (sep : string) (parts : list string) :
  1 <= String.length sep ->
  list_sum (map (fun q => S (String.length q)) parts)
  <= S (String.length (Js.join sep parts)).
Proof.
  intros Hsep. induction parts as [|p parts IH]; [simpl; lia |].
  destruct parts as [|q parts]; [simpl; lia |].
  rewrite join_cons2, !length_app. simpl map in *. simpl list_sum in *. lia.
Qed.

Lemma list_sum_le {A} (f g : A -> nat) (l : list A) :
  Forall (fun x => f x <= g x) l ->
  list_sum (map f l) <= list_sum (map g l).
Proof. induction 1; simpl; lia. Qed.

(** The text of a value is at least as long as the parser nests calls on
    the value. *)
Lemma size_le_length (v : value) :
  forall indent, size v <= String.length (serialize gap indent v).
Proof.
  induction v as [| b | s | elements IH | members IH] using value_nested_ind;
    intros indent.
  - simpl. lia.
  - destruct b; simpl; lia.
  - simpl. lia.
  - destruct elements as [|x elements]; [simpl; lia |].
    rewrite serialize_array, !length_app.
    change (size (Arr (x :: elements))) with (S (elementsSize (x :: elements))).
    pose proof (join_length ("," ++ padding gap (indent ++ gap))
                  (map (serialize gap (indent ++ gap)) (x :: elements))) as HJ.
    rewrite map_map in HJ.
    assert (Hle : elementsSize (x :: elements)
                  <= list_sum (map (fun y => S (String.length
                        (serialize gap (indent ++ gap) y))) (x :: elements))).
    { apply list_sum_le. eapply Forall_impl; [| exact IH].
      intros y Hy. cbv beta in *. specialize (Hy (indent ++ gap)). lia. }
    simpl String.length in *. lia.
  - destruct members as [|m members]; [simpl; lia |].
    rewrite serialize_object, !length_app.
    change (size (Obj (m :: members))) with (S (membersSize (m :: members))).
    pose proof (join_length ("," ++ padding gap (indent ++ gap))
                  (map (memberText gap (indent ++ gap)) (m :: members))) as HJ.
    rewrite map_map in HJ.
    assert (Hle : membersSize (m :: members)
                  <= list_sum (map (fun y => S (String.length
                        (memberText gap (indent ++ gap) y))) (m :: members))).
    { apply list_sum_le. eapply Forall_impl; [| exact IH].
      intros y Hy. cbv beta in *. specialize (Hy (indent ++ gap)).
      unfold memberText. rewrite !length_app. lia. }
    simpl String.length in *. lia.
Qed.

Lemma parse_serialize (v : value) :
  parse (serialize gap EmptyString v) = Some v.
Proof.
  unfold parse.
  pose proof (serialize_readsBack v EmptyString
                (S (String.length (serialize gap EmptyString v)))
                EmptyString EmptyString eq_refl eq_refl) as H.
  rewrite append_empty_r in H. simpl append in H.
  rewrite H; [reflexivity |].
  pose proof (size_le_length v EmptyString). lia.
Qed.

End Gap.

(** [JSON.parse] undoes [JSON.stringify], whatever the indentation. *)
Lemma parse_stringify (v : value) (space : nat) :
  parse (stringify v space) = Some v.
Proof. apply parse_serialize, allWhite_spaces. Qed.

End JSONFacts.

Lemma attributeOfValue_attributeValue (a : Attribute) :
  Spec.attributeOfValue (attributeValue a) = Some a.
Proof. destruct a as [name type [d|]]; reflexivity. Qed.

Lemma attributesOfValues_map (attrs : list Attribute) :
  Spec.attributesOfValues (map attributeValue attrs) = Some attrs.
Proof.
  induction attrs as [|a attrs IH]; [reflexivity |].
  simpl map. cbn [Spec.attributesOfValues].
  now rewrite attributeOfValue_attributeValue, IH.
Qed.

Lemma templateOfValue_templateValue (data : TemplateData) :
  Spec.templateOfValue (templateValue data) = Some data.
Proof.
  destruct data as [name category description attrs].
  unfold templateValue, Spec.templateOfValue. simpl.
  now rewrite attributesOfValues_map.
Qed.

(** C4: reading the JSON export of a record back gives the record:
    name, category, description and the attributes, each with its name,
    type and description, in order. *)
Theorem json_round_trip :
  forall data, Spec.fromJSON (toJSON data) = Some data.
Proof.
  intros data. unfold Spec.fromJSON, toJSON.
  rewrite parse_stringify. apply templateOfValue_templateValue.
Qed.

(* ================================================================== *)
(** * Part IV: further properties of the code *)
(* ================================================================== *)

(** ** The store: deleting and runs *)

Lemma filter_other_ids (id : string) (configs : list SavedConfig) :
  ~ In id (map cfg_id configs) ->
  filter (fun config => negb (cfg_id config =? id)) configs = configs.
Proof.
  induction configs as [|c configs IH]; simpl; intros H; [reflexivity |].
  destruct (String.eqb_spec (cfg_id c) id) as [E | E]; simpl.
  - elim H. now left.
  - rewrite IH; [reflexivity |]. intros Hin. apply H. now right.
Qed.

Lemma setSavedConfigs_same (app : App) :
  setSavedConfigs (savedConfigs app) app = app.
Proof. now destruct app. Qed.

(** X1: a confirmed [deleteConfig] leaves no configuration under the id;
    it takes out one entry when the id is that of one entry only and
    leaves the others in their order; an id no entry has changes nothing
    in the list; a declined [confirm] changes nothing at all and shows
    nothing. *)
Theorem delete_removes_the_id :
  (forall id grid app,
     ~ In id (map cfg_id
                (savedConfigs (after (deleteConfig id true grid app))))) /\
  (forall grid app before config rest,
     savedConfigs app = (before ++ config :: rest)%list ->
     ~ In (cfg_id config) (map cfg_id before) ->
     ~ In (cfg_id config) (map cfg_id rest) ->
     savedConfigs (after (deleteConfig (cfg_id config) true grid app))
     = (before ++ rest)%list) /\
  (forall id grid app,
     ~ In id (map cfg_id (savedConfigs app)) ->
     after (deleteConfig id true grid app) = app) /\
  (forall id grid app,
     deleteConfig id false grid app = mkOutcome JsUndefined app []).
Proof.
  split; [| split; [| split]].
  - intros id grid app. simpl. rewrite in_map_iff.
    intros (c & Hid & Hin). apply filter_In in Hin as [_ Hne].
    rewrite Hid, String.eqb_refl in Hne. discriminate.
  - intros grid app before config rest Happ Hb Hr. simpl.
    rewrite Happ, filter_app. simpl. rewrite String.eqb_refl. simpl.
    now rewrite !filter_other_ids.
  - intros id grid app H. simpl.
    rewrite filter_other_ids by exact H. apply setSavedConfigs_same.
  - reflexivity.
Qed.

(** X2: deleting, under its id, the configuration that [saveTemplate]
    just put in gives back the application as it was before the save,
    when the saved ids were made from other clock readings. *)
Theorem save_then_delete_restores (doc : Document) (now stamp : Z)
    (grid : bool) (app : App) :
  Spec.savedBefore now (savedConfigs app) ->
  after (deleteConfig (configId now) true grid
           (after (saveTemplate doc now stamp app)))
  = app.
Proof.
  intros Hsaved. apply savedBefore_fresh in Hsaved.
  unfold saveTemplate.
  destruct (negb _).
  - simpl after at 2. simpl. rewrite filter_other_ids by exact Hsaved.
    apply setSavedConfigs_same.
  - destruct (_ =? _)%nat.
    + simpl after at 2. simpl. rewrite filter_other_ids by exact Hsaved.
      apply setSavedConfigs_same.
    + simpl. rewrite String.eqb_refl. simpl.
      rewrite filter_other_ids by exact Hsaved. now destruct app.
Qed.

Lemma save_then_delete_restores_witness :
  after (deleteConfig (configId 1001) true true
           (after (saveTemplate pumpDocument 1001 1001 pumpSaved)))
  = pumpSaved.
Proof.
  apply (save_then_delete_restores pumpDocument 1001 1001 true pumpSaved).
  repeat constructor. exists 1000%Z. split; [reflexivity | lia].
Defined.

(** Every saved id was made from a clock reading that is none of
    [later]. *)
Lemma savedBefore_all_step (op : StoreOp) (later : list Z) (app : App) :
  Forall (fun t => Spec.savedBefore t (savedConfigs app)) later ->
  Forall (fun t => match op with
                   | SaveOp _ now _ => now <> t
                   | DeleteOp _ _ _ => True
                   end) later ->
  Forall (fun t => Spec.savedBefore t (savedConfigs (storeStep op app))) later.
Proof.
  intros Hsaved Hop. rewrite Forall_forall in *. intros t Hin.
  destruct op as [doc now stamp | id confirmed grid]; simpl.
  - apply savedBefore_save; [now apply Hsaved | now apply Hop].
  - apply savedBefore_delete. now apply Hsaved.
Qed.

Lemma storeStep_NoDup (op : StoreOp) (app : App) :
  NoDup (map cfg_id (savedConfigs app)) ->
  match op with
  | SaveOp _ now _ => Spec.savedBefore now (savedConfigs app)
  | DeleteOp _ _ _ => True
  end ->
  NoDup (map cfg_id (savedConfigs (storeStep op app))).
Proof.
  intros Hnd Hop. destruct op as [doc now stamp | id confirmed grid]; simpl.
  - unfold saveTemplate. destruct (negb _); [exact Hnd |].
    destruct (_ =? _)%nat; [exact Hnd |]. simpl.
    constructor; [now apply savedBefore_fresh | exact Hnd].
  - unfold deleteConfig. destruct confirmed; [| exact Hnd]. simpl.
    induction (savedConfigs app) as [|c configs IH]; simpl; [constructor |].
    inversion Hnd as [|x l Hx Hl]; subst.
    destruct (negb _); simpl; [| now apply IH].
    constructor; [| now apply IH].
    rewrite in_map_iff. intros (c' & Hid & Hin).
    apply filter_In in Hin as [Hin _]. apply Hx, in_map_iff. now exists c'.
Qed.

Lemma runStore_NoDup (ops : list StoreOp) :
  forall app,
    NoDup (map cfg_id (savedConfigs app)) ->
    Forall (fun t => Spec.savedBefore t (savedConfigs app)) (clockReadings ops) ->
    NoDup (clockReadings ops) ->
    NoDup (map cfg_id (savedConfigs (runStore ops app))).
Proof.
  induction ops as [|op ops IH]; intros app Hnd Hsaved Hclock; [exact Hnd |].
  simpl. apply IH.
  - apply storeStep_NoDup; [exact Hnd |].
    destruct op; [| exact I]. now inversion Hsaved.
  - destruct op as [doc now stamp | id confirmed grid]; simpl in *.
    + inversion Hsaved; subst. inversion Hclock; subst.
      apply (savedBefore_all_step (SaveOp doc now stamp)); [assumption |].
      rewrite Forall_forall. intros t Hin E. subst. contradiction.
    + apply (savedBefore_all_step (DeleteOp id confirmed grid));
        [assumption |].
      rewrite Forall_forall. now intros.
  - destruct op; simpl in Hclock; [now inversion Hclock | exact Hclock].
Qed.

(** X3: from the constructed application, any run of saves and deletes
    in which no two saves read the same clock value keeps the ids of the
    saved configurations distinct. *)
Theorem distinct_readings_distinct_ids (ops : list StoreOp) :
  NoDup (clockReadings ops) ->
  NoDup (map cfg_id (savedConfigs (runStore ops constructed))).
Proof.
  intros Hclock. apply runStore_NoDup; [constructor | | exact Hclock].
  rewrite Forall_forall. intros t _. constructor.
Qed.

Lemma distinct_readings_distinct_ids_witness :
  NoDup (map cfg_id
           (savedConfigs
              (runStore [SaveOp pumpDocument 1000 1000;
                         SaveOp pumpDocument 1001 1002;
                         DeleteOp "template-1000" true true;
                         SaveOp pumpDocument 1005 1005]
                        constructed))).
Proof.
  apply (distinct_readings_distinct_ids
           [SaveOp pumpDocument 1000 1000;
            SaveOp pumpDocument 1001 1002;
            DeleteOp "template-1000" true true;
            SaveOp pumpDocument 1005 1005]).
  simpl. repeat constructor; simpl; intuition lia.
Defined.

(** ** Input sanitizing *)

Section SanitizeFacts.

Import Sanitize.

Lemma harmless_removeDangerous (s : string) :
  harmless (removeDangerous s) = true.
Proof.
  induction s as [|c s IH]; simpl; [reflexivity |].
  destruct (isDangerous c) eqn:E; simpl; [exact IH | now rewrite E].
Qed.

Lemma harmless_trimStart (s : string) :
  harmless s = true -> harmless (trimStart s) = true.
Proof.
  induction s as [|c s IH]; simpl; [easy |]. intros H.
  destruct (isTrimSpace c); [| exact H].
  apply andb_true_iff in H as [_ H]. now apply IH.
Qed.

Lemma harmless_trimEnd (s : string) :
  harmless s = true -> harmless (trimEnd s) = true.
Proof.
  induction s as [|c s IH]; simpl; [easy |]. intros H.
  apply andb_true_iff in H as [Hc H]. specialize (IH H).
  destruct (trimEnd s) as [|d rest].
  - destruct (isTrimSpace c); simpl; [reflexivity | now rewrite Hc].
  - change (harmless (String c (String d rest)))
      with (negb (isDangerous c) && harmless (String d rest)).
    now rewrite Hc, IH.
Qed.

Lemma harmless_substringTo (n : nat) (s : string) :
  harmless s = true -> harmless (substringTo n s) = true.
Proof.
  revert s; induction n as [|n IH]; intros [|c s]; simpl; try easy.
  intros H. apply andb_true_iff in H as [Hc H]. now rewrite Hc, IH.
Qed.

Lemma length_substringTo (n : nat) (s : string) :
  String.length (substringTo n s) <= n.
Proof.
  revert s; induction n as [|n IH]; intros [|c s]; simpl; try lia.
  specialize (IH s). lia.
Qed.

Lemma substringTo_short (n : nat) (s : string) :
  String.length s <= n -> substringTo n s = s.
Proof.
  revert s; induction n as [|n IH]; intros [|c s]; simpl; intros H;
    try reflexivity; [lia |].
  rewrite IH; [reflexivity | lia].
Qed.

Lemma harmless_no_LT (s : string) :
  harmless s = true -> hasUnit LT s = false.
Proof.
  induction s as [|c s IH]; simpl; [easy |]. intros H.
  apply andb_true_iff in H as [Hc H]. rewrite (IH H), orb_false_r.
  unfold isDangerous in Hc. destruct (Ascii.eqb c LT); [discriminate | easy].
Qed.

Lemma stripTags_no_LT (s : string) :
  hasUnit LT s = false -> stripTags s = s.
Proof.
  unfold stripTags. induction s as [|c s IH]; simpl; [easy |]. intros H.
  apply orb_false_iff in H as [Hc H]. now rewrite Hc, IH.
Qed.

Lemma removeDangerous_harmless (s : string) :
  harmless s = true -> removeDangerous s = s.
Proof.
  induction s as [|c s IH]; simpl; [easy |]. intros H.
  apply andb_true_iff in H as [Hc H].
  destruct (isDangerous c); [discriminate |]. now rewrite IH.
Qed.

(** A text that does not start with white space. *)
Lemma trimStart_fixed (s : string) :
  match s with
  | EmptyString => True
  | String c _ => isTrimSpace c = false
  end -> trimStart s = s.
Proof. destruct s as [|c s]; simpl; [easy |]. now intros ->. Qed.

Lemma trimStart_head (s : string) :
  match trimStart s with
  | EmptyString => True
  | String c _ => isTrimSpace c = false
  end.
Proof.
  induction s as [|c s IH]; simpl; [exact I |].
  destruct (isTrimSpace c) eqn:E; [exact IH | exact E].
Qed.

Lemma trimEnd_head (s : string) :
  match s with
  | EmptyString => True
  | String c _ => isTrimSpace c = false
  end ->
  match trimEnd s with
  | EmptyString => True
  | String c _ => isTrimSpace c = false
  end.
Proof.
  destruct s as [|c s]; simpl; [easy |]. intros H.
  destruct (trimEnd s); [now rewrite H | exact H].
Qed.

Lemma trimEnd_idempotent (s : string) : trimEnd (trimEnd s) = trimEnd s.
Proof.
  induction s as [|c s IH]; [reflexivity |].
  simpl. destruct (trimEnd s) as [|d rest] eqn:E.
  - destruct (isTrimSpace c) eqn:Hc; simpl; [reflexivity | now rewrite Hc].
  - change (trimEnd (String c (String d rest)))
      with (match trimEnd (String d rest) with
            | EmptyString =>
                if isTrimSpace c then EmptyString else String c EmptyString
            | String d' rest' => String c (String d' rest')
            end).
    now rewrite IH.
Qed.

Lemma trim_idempotent (s : string) : trim (trim s) = trim s.
Proof.
  unfold trim.
  rewrite (trimStart_fixed (trimEnd (trimStart s))).
  - apply trimEnd_idempotent.
  - apply trimEnd_head, trimStart_head.
Qed.

(** The sanitizer changes nothing in a text that is harmless, trimmed
    and at most 1000 units long. *)
Lemma sanitizeInput_fixed (s : string) :
  harmless s = true -> trim s = s -> String.length s <= 1000 ->
  sanitizeInput s = s.
Proof.
  intros Hh Ht Hl. unfold sanitizeInput.
  rewrite stripTags_no_LT by now apply harmless_no_LT.
  rewrite removeDangerous_harmless by exact Hh.
  rewrite Ht. now apply substringTo_short.
Qed.

Lemma stripTagsFrom_inside (t rest : string) :
  hasUnit GT t = false ->
  stripTagsFrom true (t ++ String GT rest) = stripTagsFrom false rest.
Proof.
  induction t as [|c t IH]; simpl; [easy |]. intros H.
  apply orb_false_iff in H as [Hc H]. now rewrite Hc, IH.
Qed.

Lemma hasUnit_app (c : ascii) (a b : string) :
  hasUnit c (a ++ b) = hasUnit c a || hasUnit c b.
Proof.
  induction a as [|d a IH]; simpl; [reflexivity |].
  now rewrite IH, orb_assoc.
Qed.

(** X4: what [sanitizeInput] returns holds none of [<], [>], the double
    quote and the apostrophe, and is at most 1000 units long. *)
Theorem sanitize_output_harmless :
  forall input,
    harmless (sanitizeInput input) = true /\
    hasUnit LT (sanitizeInput input) = false /\
    String.length (sanitizeInput input) <= 1000.
Proof.
  intros input.
  assert (H : harmless (sanitizeInput input) = true).
  { unfold sanitizeInput, trim.
    apply harmless_substringTo, harmless_trimEnd, harmless_trimStart,
      harmless_removeDangerous. }
  split; [exact H | split].
  - now apply harmless_no_LT.
  - apply length_substringTo.
Qed.

(** X5: [sanitizeInput] gives back unchanged a text that holds none of
    the four units, has no white space at either end and is at most 1000
    units long. *)
Theorem sanitize_keeps_clean_text (s : string) :
  harmless s = true -> trim s = s -> String.length s <= 1000 ->
  sanitizeInput s = s.
Proof. apply sanitizeInput_fixed. Qed.

Lemma sanitize_keeps_clean_text_witness :
  sanitizeInput "Discharge pressure (bar)" = "Discharge pressure (bar)".
Proof.
  apply (sanitize_keeps_clean_text "Discharge pressure (bar)").
  - reflexivity.
  - reflexivity.
  - simpl. lia.
Defined.

(** X6: sanitizing twice is sanitizing once, as long as the cut at 1000
    units does not apply: the text was at most 1000 long once tags and
    the four units were out and the ends trimmed. *)
Theorem sanitize_twice (input : string) :
  String.length (trim (removeDangerous (stripTags input))) <= 1000 ->
  sanitizeInput (sanitizeInput input) = sanitizeInput input.
Proof.
  intros Hl. unfold sanitizeInput at 2 3.
  rewrite (substringTo_short _ _ Hl).
  apply sanitizeInput_fixed.
  - apply harmless_trimEnd, harmless_trimStart, harmless_removeDangerous.
  - apply trim_idempotent.
  - exact Hl.
Qed.

Lemma sanitize_twice_witness :
  sanitizeInput (sanitizeInput "  <b>Motor</b> speed ")
  = sanitizeInput "  <b>Motor</b> speed ".
Proof.
  apply (sanitize_twice "  <b>Motor</b> speed ").
  simpl. lia.
Defined.

(** X7: the first [replace] takes out a tag whole: after a text with no
    [<], everything from a [<] through the next [>] goes, and the rest is
    treated in the same way. *)
Theorem stripTags_removes_tag (before tag rest : string) :
  hasUnit LT before = false -> hasUnit GT tag = false ->
  stripTags (before ++ String LT (tag ++ String GT rest))
  = before ++ stripTags rest.
Proof.
  intros Hb Ht. unfold stripTags.
  induction before as [|c before IH]; simpl.
  - rewrite hasUnit_app. simpl. rewrite orb_true_r.
    now apply stripTagsFrom_inside.
  - simpl in Hb. apply orb_false_iff in Hb as [Hc Hb].
    now rewrite Hc, IH.
Qed.

Lemma stripTags_removes_tag_witness :
  stripTags ("Speed " ++ String LT ("b class=x" ++ String GT "rpm"))
  = "Speed " ++ stripTags "rpm".
Proof.
  apply (stripTags_removes_tag "Speed " "b class=x" "rpm"); reflexivity.
Defined.

End SanitizeFacts.

(** ** The quick reference and the template repository *)

Lemma includes_lowered_iff (text search : string) :
  Js.includes (Js.toLowerCase text)
              (Js.orElse (Some (Js.toLowerCase search)) EmptyString) = true <->
  Spec.containsIgnoringCase text search.
Proof.
  rewrite <- includes_lower_iff.
  now destruct search.
Qed.

Lemma filter_filter {A} (f g : A -> bool) (l : list A) :
  filter f (filter g l) = filter (fun x => g x && f x) l.
Proof.
  induction l as [|x l IH]; simpl; [reflexivity |].
  destruct (g x); simpl; [destruct (f x) |]; now rewrite IH.
Qed.

Lemma filter_ext_all {A} (f g : A -> bool) (l : list A) :
  (forall x, f x = g x) -> filter f l = filter g l.
Proof.
  intros H. induction l as [|x l IH]; simpl; [reflexivity |].
  now rewrite H, IH.
Qed.







Lemma templateMatches_iff (search category : string) (template : Template) :
  templateMatches
    (Js.orElse (Some (Js.toLowerCase search)) EmptyString)
    (Js.orElse (Some category) EmptyString) template = true <->
  templateAnswers search category template.
Proof.
  unfold templateMatches, templateAnswers.
  rewrite andb_true_iff, !orb_true_iff, !includes_lowered_iff,
    existsb_exists, negb_true_iff, String.eqb_eq.
  assert (Htags :
    (exists tag, In tag (tpl_tags template) /\
       Js.includes (Js.toLowerCase tag)
         (Js.orElse (Some (Js.toLowerCase search)) EmptyString) = true) <->
    (exists tag, In tag (tpl_tags template) /\
       Spec.containsIgnoringCase tag search)).
  { split; intros (tag & Hin & H); exists tag; split; auto;
      now apply includes_lowered_iff. }
  rewrite Htags.
  assert (Hcat :
    (Js.truthy (Js.orElse (Some category) EmptyString) = false \/
     tpl_category template = Js.orElse (Some category) EmptyString) <->
    (category = EmptyString \/ tpl_category template = category)).
  { destruct category as [|c category]; simpl; [tauto |].
    split; intros [H | H]; try discriminate; now right. }
  rewrite Hcat. tauto.
Qed.

(** X9: [filterTemplates] draws, in the order of the repository, exactly
    the templates whose name, description or one of whose tags contains
    the search text, whatever the case of its letters, and whose category
    is the chosen one when the category filter is not empty; with both
    fields missing or empty it draws the whole repository; without the
    grid it draws nothing. *)
Theorem filter_templates_search :
  (forall search category repository,
     exists keep : Template -> bool,
       filterTemplates (mkRepositoryPage (Some search) (Some category) true)
                       repository
       = Some (filter keep repository) /\
       forall template,
         keep template = true <-> templateAnswers search category template) /\
  (forall repository,
     filterTemplates (mkRepositoryPage None None true) repository
     = Some repository /\
     filterTemplates (mkRepositoryPage (Some EmptyString) (Some EmptyString) true)
                     repository
     = Some repository) /\
  (forall search category repository,
     filterTemplates (mkRepositoryPage search category false) repository
     = None).
Proof.
  split; [| split].
  - intros search category repository. eexists. split; [reflexivity |].
    intros template. apply templateMatches_iff.
  - intros repository. unfold filterTemplates, renderTemplateCards. simpl.
    rewrite filter_all; [now split |].
    intros template. unfold templateMatches. simpl.
    now destruct (Js.toLowerCase (tpl_name template)).
  - reflexivity.
Qed.

(** X10: two records with the same JSON export are the same record. *)
Theorem json_export_injective :
  forall a b : TemplateData, toJSON a = toJSON b -> a = b.
Proof.
  intros a b H.
  assert (P : JSON.parse (toJSON a) = JSON.parse (toJSON b))
    by now rewrite H.
  unfold toJSON in P. rewrite !parse_stringify in P.
  apply (f_equal (fun parsed => match parsed with
                                | Some v => Spec.templateOfValue v
                                | None => None
                                end)) in P.
  rewrite !templateOfValue_templateValue in P. now injection P.
Qed.

Lemma json_export_injective_witness :
  collectTemplateData pumpDocument = collectTemplateData pumpDocument.
Proof.
  apply (json_export_injective (collectTemplateData pumpDocument)
           (collectTemplateData pumpDocument)).
  reflexivity.
Defined.

(** ** The service worker *)

Section ServiceWorkerFacts.

Import ServiceWorker.

Lemma cacheMatch_app (a b : Cache) (url : string) :
  cacheMatch (a ++ b)%list url
  = match cacheMatch a url with
    | Some response => Some response
    | None => cacheMatch b url
    end.
Proof.
  induction a as [|[key response] a IH]; simpl; [reflexivity |].
  now destruct (key =? url).
Qed.

Lemma cacheMatch_filter_same (cache : Cache) (url : string) :
  cacheMatch (filter (fun entry => negb (fst entry =? url)) cache) url = None.
Proof.
  induction cache as [|[key response] cache IH]; simpl; [reflexivity |].
  destruct (key =? url) eqn:E; simpl; [exact IH | now rewrite E].
Qed.

Lemma cacheMatch_filter_other (cache : Cache) (url other : string) :
  other <> url ->
  cacheMatch (filter (fun entry => negb (fst entry =? url)) cache) other
  = cacheMatch cache other.
Proof.
  intros Hne. induction cache as [|[key response] cache IH]; simpl;
    [reflexivity |].
  destruct (String.eqb_spec key url) as [-> | Hk]; simpl.
  - destruct (String.eqb_spec url other) as [E | _]; [now elim Hne | exact IH].
  - now rewrite IH.
Qed.

(** A response put under a URL is what the cache answers for the URL,
    and the answers for the other URLs stay. *)
Lemma cacheMatch_put_same (cache : Cache) (url : string) (response : Response) :
  cacheMatch (cachePut cache url response) url = Some response.
Proof.
  unfold cachePut. rewrite cacheMatch_app, cacheMatch_filter_same. simpl.
  now rewrite String.eqb_refl.
Qed.

Lemma cacheMatch_put_other (cache : Cache) (url other : string)
    (response : Response) :
  other <> url ->
  cacheMatch (cachePut cache url response) other = cacheMatch cache other.
Proof.
  intros Hne. unfold cachePut.
  rewrite cacheMatch_app, (cacheMatch_filter_other _ _ _ Hne). simpl.
  destruct (String.eqb_spec url other) as [E | _]; [now elim Hne |].
  now destruct (cacheMatch cache other).
Qed.

Lemma cachesMatch_withCache (storage : CacheStorage) (name url : string)
    (f : Cache -> Cache) (response : Response) :
  cachesMatch storage url = None ->
  (forall cache, cacheMatch (f cache) url = Some response) ->
  cachesMatch (withCache storage name f) url = Some response.
Proof.
  intros Hnone Hf.
  induction storage as [|[n cache] storage IH]; simpl in *.
  - now rewrite Hf.
  - destruct (cacheMatch cache url) eqn:E; [discriminate |].
    destruct (n =? name); simpl; [now rewrite Hf |].
    rewrite E. now apply IH.
Qed.

Lemma cachesMatch_activated (storage : CacheStorage) (url : string)
    (f : Cache -> Cache) (response : Response) :
  (forall cache, cacheMatch (f cache) url = Some response) ->
  cachesMatch (onActivate (withCache storage CACHE_NAME f)) url
  = Some response.
Proof.
  intros Hf. unfold onActivate.
  induction storage as [|[n cache] storage IH]; simpl.
  - now rewrite Hf.
  - destruct (n =? CACHE_NAME) eqn:E; simpl; rewrite E; simpl;
      [now rewrite Hf | exact IH].
Qed.

Lemma onFetch_handled (origin url destination : string)
    (network : option Response) (storage : CacheStorage) :
  Js.startsWith url origin = true ->
  onFetch origin (mkRequest "GET" url destination) network storage
  = match cachesMatch storage url with
    | Some response => mkFetchResult (Some (Some response)) false storage
    | None =>
        match network with
        | Some response =>
            if negb (resp_status response =? 200)%Z ||
               negb (resp_type response =? "basic")
            then mkFetchResult (Some (Some response)) true storage
            else mkFetchResult (Some (Some response)) true
                   (withCache storage CACHE_NAME
                      (fun cache => cachePut cache url response))
        | None =>
            if destination =? "document"
            then mkFetchResult
                   (Some (cachesMatch storage (resolve origin "/index.html")))
                   true storage
            else mkFetchResult (Some None) true storage
        end
    end.
Proof. intros H. unfold onFetch. simpl. now rewrite H. Qed.

Lemma fetch_is_cache_first_aux (origin url destination : string)
    (network : option Response) (storage : CacheStorage)
    (cached : Response) :
  Js.startsWith url origin = true ->
  cachesMatch storage url = Some cached ->
  onFetch origin (mkRequest "GET" url destination) network storage
  = mkFetchResult (Some (Some cached)) false storage.
Proof. intros Ho Hc. now rewrite (onFetch_handled _ _ _ _ _ Ho), Hc. Qed.

(** X11: the [fetch] handler answers a request exactly when its method
    is [GET] and its URL starts with the origin of the worker; any other
    request is left to the browser, with no call to the network and no
    change to the caches. *)
Theorem fetch_handles_same_origin_get :
  forall origin request network storage,
    (respondedWith (onFetch origin request network storage) <> None <->
     req_method request = "GET" /\
     exists rest, req_url request = origin ++ rest) /\
    (respondedWith (onFetch origin request network storage) = None ->
     onFetch origin request network storage
     = mkFetchResult None false storage).
Proof.
  intros origin request network storage. unfold onFetch.
  rewrite <- startsWith_iff.
  destruct (String.eqb_spec (req_method request) "GET") as [Hm | Hm]; simpl.
  - destruct (Js.startsWith (req_url request) origin); simpl.
    + split.
      * split; [intros _; now split |]. intros _.
        destruct (cachesMatch _ _); [discriminate |].
        destruct network as [response |].
        -- destruct (_ || _); discriminate.
        -- destruct (_ =? _); discriminate.
      * destruct (cachesMatch _ _); [discriminate |].
        destruct network as [response |].
        -- destruct (_ || _); discriminate.
        -- destruct (_ =? _); discriminate.
    + split; [| reflexivity]. split; [now intros H | intros [_ H]; discriminate].
  - split; [| reflexivity]. split; [now intros H | intros [H _]; contradiction].
Qed.

(** X12: a request the caches can answer is answered from them: the
    network is not called and the caches do not change, whatever the
    network would have said. *)
Theorem fetch_is_cache_first (origin url destination : string)
    (network : option Response) (storage : CacheStorage)
    (cached : Response) :
  Js.startsWith url origin = true ->
  cachesMatch storage url = Some cached ->
  onFetch origin (mkRequest "GET" url destination) network storage
  = mkFetchResult (Some (Some cached)) false storage.
Proof. apply fetch_is_cache_first_aux. Qed.

Lemma fetch_is_cache_first_witness :
  onFetch "https://plant.example" (navigation "https://plant.example/index.html")
          None
          [(CACHE_NAME,
            [("https://plant.example/index.html", mkResponse 200 "basic" "page")])]
  = mkFetchResult (Some (Some (mkResponse 200 "basic" "page"))) false
      [(CACHE_NAME,
        [("https://plant.example/index.html", mkResponse 200 "basic" "page")])].
Proof.
  apply (fetch_is_cache_first "https://plant.example"
           "https://plant.example/index.html" "document" None
           [(CACHE_NAME,
             [("https://plant.example/index.html",
               mkResponse 200 "basic" "page")])]
           (mkResponse 200 "basic" "page")); reflexivity.
Defined.

(** X13: a request no cache can answer goes to the network and the
    response is handed over as it is; it is put in the cache only with
    status 200 and type [basic], and once it is there the same request
    is answered with it from the cache, the network down or not. *)
Theorem fetch_caches_basic_200 (origin url destination : string)
    (response : Response) (storage : CacheStorage) :
  Js.startsWith url origin = true ->
  cachesMatch storage url = None ->
  let first :=
    onFetch origin (mkRequest "GET" url destination) (Some response) storage in
  respondedWith first = Some (Some response) /\
  usedNetwork first = true /\
  (resp_status response <> 200%Z \/ resp_type response <> "basic" ->
   storageAfter first = storage) /\
  (resp_status response = 200%Z -> resp_type response = "basic" ->
   forall again later,
     onFetch origin (mkRequest "GET" url again) later (storageAfter first)
     = mkFetchResult (Some (Some response)) false (storageAfter first)).
Proof.
  intros Ho Hc first. subst first.
  rewrite (onFetch_handled _ _ _ _ _ Ho), Hc.
  destruct (Z.eqb_spec (resp_status response) 200) as [Hs | Hs];
    destruct (String.eqb_spec (resp_type response) "basic") as [Ht | Ht];
    simpl; repeat split; try tauto; try (intros [H | H]; contradiction).
  intros _ _ again later.
  apply fetch_is_cache_first_aux; [exact Ho |].
  apply cachesMatch_withCache; [exact Hc |].
  intros cache. apply cacheMatch_put_same.
Qed.

Lemma fetch_caches_basic_200_witness :
  respondedWith
    (onFetch "https://plant.example"
       (mkRequest "GET" "https://plant.example/styles.css" "style")
       (Some (mkResponse 200 "basic" "css")) [])
  = Some (Some (mkResponse 200 "basic" "css")) /\
  usedNetwork
    (onFetch "https://plant.example"
       (mkRequest "GET" "https://plant.example/styles.css" "style")
       (Some (mkResponse 200 "basic" "css")) [])
  = true /\
  (resp_status (mkResponse 200 "basic" "css") <> 200%Z \/
   resp_type (mkResponse 200 "basic" "css") <> "basic" ->
   storageAfter
     (onFetch "https://plant.example"
        (mkRequest "GET" "https://plant.example/styles.css" "style")
        (Some (mkResponse 200 "basic" "css")) [])
   = []) /\
  (resp_status (mkResponse 200 "basic" "css") = 200%Z ->
   resp_type (mkResponse 200 "basic" "css") = "basic" ->
   forall again later,
     onFetch "https://plant.example"
       (mkRequest "GET" "https://plant.example/styles.css" again) later
       (storageAfter
          (onFetch "https://plant.example"
             (mkRequest "GET" "https://plant.example/styles.css" "style")
             (Some (mkResponse 200 "basic" "css")) []))
     = mkFetchResult (Some (Some (mkResponse 200 "basic" "css"))) false
         (storageAfter
            (onFetch "https://plant.example"
               (mkRequest "GET" "https://plant.example/styles.css" "style")
               (Some (mkResponse 200 "basic" "css")) []))).
Proof.
  apply (fetch_caches_basic_200 "https://plant.example"
           "https://plant.example/styles.css" "style"
           (mkResponse 200 "basic" "css") []); reflexivity.
Defined.

Lemma onFetch_offline (origin url destination : string)
    (storage : CacheStorage) :
  Js.startsWith url origin = true ->
  cachesMatch storage url = None ->
  onFetch origin (mkRequest "GET" url destination) None storage
  = mkFetchResult
      (Some (if destination =? "document"
             then cachesMatch storage (origin ++ "/index.html")
             else None))
      true storage.
Proof.
  intros Ho Hc. rewrite (onFetch_handled _ _ _ _ _ Ho), Hc.
  now destruct (destination =? "document").
Qed.

Lemma cachesMatch_In (storage : CacheStorage) (url : string)
    (response : Response) :
  cachesMatch storage url = Some response ->
  exists name cache,
    In (name, cache) storage /\ cacheMatch cache url = Some response.
Proof.
  induction storage as [|[n cache] storage IH]; simpl; [discriminate |].
  destruct (cacheMatch cache url) as [r |] eqn:E.
  - intros H. injection H as <-. exists n, cache. split; [now left | exact E].
  - intros H. destruct (IH H) as (name & c & Hin & Hc).
    exists name, c. split; [now right | exact Hc].
Qed.

(** X15: after [activate] only caches of the current name are left, each
    with the content it had; so the caches answer a URL only from a cache
    of the current name, and activating again changes nothing. *)
Theorem activate_keeps_current_cache :
  forall storage,
    (forall name cache,
       In (name, cache) (onActivate storage) <->
       In (name, cache) storage /\ name = CACHE_NAME) /\
    (forall url response,
       cachesMatch (onActivate storage) url = Some response ->
       exists cache,
         In (CACHE_NAME, cache) storage /\
         cacheMatch cache url = Some response) /\
    onActivate (onActivate storage) = onActivate storage.
Proof.
  intros storage.
  assert (Hin : forall name cache,
            In (name, cache) (onActivate storage) <->
            In (name, cache) storage /\ name = CACHE_NAME).
  { intros name cache. unfold onActivate.
    rewrite filter_In. simpl. now rewrite String.eqb_eq. }
  split; [exact Hin | split].
  - intros url response H.
    apply cachesMatch_In in H as (name & cache & Hc & Hm).
    apply Hin in Hc as [Hc ->]. now exists cache.
  - unfold onActivate. rewrite filter_filter.
    apply filter_ext_all. intros named. now destruct (_ =? _).
Qed.

Lemma fetchAll_all (network : string -> option Response) (urls : list string) :
  (forall url, In url urls ->
     exists response,
       network url = Some response /\ acceptable response = true) ->
  exists fetched,
    fetchAll network urls = Some fetched /\
    map fst fetched = urls /\
    Forall (fun entry => network (fst entry) = Some (snd entry)) fetched.
Proof.
  induction urls as [|url urls IH]; intros H.
  - exists []. repeat split. constructor.
  - destruct (H url (or_introl eq_refl)) as (response & Hn & Ha).
    destruct IH as (others & Hf & Hm & Hall).
    { intros u Hu. apply H. now right. }
    exists ((url, response) :: others). simpl.
    rewrite Hn, Hf, Ha, Hm. repeat split. now constructor.
Qed.

(** After the puts of [fetched], a URL among them is answered with what
    the network gave for it. *)
Lemma putAll_match (network : string -> option Response)
    (fetched : list (string * Response)) (url : string) :
  Forall (fun entry => network (fst entry) = Some (snd entry)) fetched ->
  forall cache,
    cacheMatch cache url = network url \/ In url (map fst fetched) ->
    cacheMatch
      (fold_left (fun c entry => cachePut c (fst entry) (snd entry))
                 fetched cache) url
    = network url.
Proof.
  induction 1 as [|[u r] fetched Hu _ IH]; intros cache Hc; simpl in *.
  - now destruct Hc.
  - apply IH. destruct (String.eqb_spec u url) as [-> | Hne].
    + left. now rewrite cacheMatch_put_same.
    + destruct Hc as [Hc | [E | Hin]]; [| contradiction | now right].
      left. rewrite cacheMatch_put_other; [exact Hc | congruence].
Qed.

(** After a complete [install] and [activate], the caches answer each
    of the five paths at the origin with what the network gave for it. *)
Lemma installed_match (origin path : string)
    (network : string -> option Response) (storage : CacheStorage) :
  (forall url, In url urlsToCache ->
     exists response,
       network (resolve origin url) = Some response /\
       acceptable response = true) ->
  In path precachedPaths ->
  snd (onInstall origin network storage) = true /\
  exists installed,
    network (origin ++ path) = Some installed /\
    cachesMatch (onActivate (fst (onInstall origin network storage)))
                (origin ++ path)
    = Some installed.
Proof.
  intros Hnet Hpath.
  destruct (fetchAll_all network (map (resolve origin) urlsToCache))
    as (fetched & Hf & Hm & Hall).
  { intros url Hin. apply in_map_iff in Hin as (u & <- & Hu). now apply Hnet. }
  assert (Hr : resolve origin path = origin ++ path).
  { unfold precachedPaths in Hpath. simpl in Hpath. unfold resolve.
    destruct Hpath as [<- | [<- | [<- | [<- | [<- | []]]]]]; reflexivity. }
  assert (Hin : In path urlsToCache).
  { unfold precachedPaths in Hpath. simpl in Hpath |- *. tauto. }
  destruct (Hnet path Hin) as (installed & Hi & _).
  rewrite Hr in Hi.
  unfold onInstall. rewrite Hf. split; [reflexivity |].
  exists installed. split; [exact Hi |].
  simpl fst. apply cachesMatch_activated. intros cache.
  rewrite (putAll_match network fetched (origin ++ path) Hall).
  - exact Hi.
  - right. rewrite Hm, <- Hr. now apply in_map.
Qed.

(** X14: once [install] has fetched the seven URLs and [activate] has
    run, a [GET] request for a document of the origin that the caches
    cannot answer, made while the network is down, is answered with the
    page installed for [/index.html]. *)
Theorem offline_navigation_falls_back (origin url : string)
    (network : string -> option Response) (storage : CacheStorage) :
  (forall u, In u urlsToCache ->
     exists response,
       network (resolve origin u) = Some response /\
       acceptable response = true) ->
  Js.startsWith url origin = true ->
  cachesMatch (onActivate (fst (onInstall origin network storage))) url
  = None ->
  exists page,
    network (origin ++ "/index.html") = Some page /\
    onFetch origin (navigation url) None
            (onActivate (fst (onInstall origin network storage)))
    = mkFetchResult (Some (Some page)) true
        (onActivate (fst (onInstall origin network storage))).
Proof.
  intros Hnet Ho Hc.
  destruct (installed_match origin "/index.html" network storage Hnet)
    as (_ & page & Hp & Hm).
  { unfold precachedPaths. simpl. tauto. }
  exists page. split; [exact Hp |].
  unfold navigation. rewrite (onFetch_offline _ _ _ _ Ho Hc). simpl.
  now rewrite Hm.
Qed.

Lemma offline_navigation_falls_back_witness :
  exists page,
    (fun url => Some (mkResponse 200 "basic" url))
      ("https://plant.example" ++ "/index.html") = Some page /\
    onFetch "https://plant.example"
      (navigation "https://plant.example/reports") None
      (onActivate
         (fst (onInstall "https://plant.example"
                 (fun url => Some (mkResponse 200 "basic" url)) [])))
    = mkFetchResult (Some (Some page)) true
        (onActivate
           (fst (onInstall "https://plant.example"
                   (fun url => Some (mkResponse 200 "basic" url)) []))).
Proof.
  apply (offline_navigation_falls_back "https://plant.example"
           "https://plant.example/reports"
           (fun url => Some (mkResponse 200 "basic" url)) []).
  - intros u _. eexists. split; reflexivity.
  - reflexivity.
  - reflexivity.
Defined.

(** X16: when the network gives an acceptable response for each of the
    seven URLs of [urlsToCache], [install] calls [skipWaiting], and after
    [activate] a [GET] request for one of the five paths of the list at
    the origin is answered with the response installed for it, from the
    cache alone: the network is not called, whatever its state. *)
Theorem install_then_offline (origin path destination : string)
    (network : string -> option Response) (storage : CacheStorage)
    (later : option Response) :
  (forall url, In url urlsToCache ->
     exists response,
       network (resolve origin url) = Some response /\
       acceptable response = true) ->
  In path precachedPaths ->
  snd (onInstall origin network storage) = true /\
  exists installed,
    network (origin ++ path) = Some installed /\
    onFetch origin (mkRequest "GET" (origin ++ path) destination) later
            (onActivate (fst (onInstall origin network storage)))
    = mkFetchResult (Some (Some installed)) false
        (onActivate (fst (onInstall origin network storage))).
Proof.
  intros Hnet Hpath.
  destruct (installed_match origin path network storage Hnet Hpath)
    as (Hskip & installed & Hi & Hm).
  split; [exact Hskip |]. exists installed. split; [exact Hi |].
  apply fetch_is_cache_first_aux; [| exact Hm].
  apply startsWith_iff. now exists path.
Qed.

Lemma install_then_offline_witness :
  snd (onInstall "https://plant.example"
         (fun url => Some (mkResponse 200 "basic" url)) []) = true /\
  exists installed,
    (fun url => Some (mkResponse 200 "basic" url))
      ("https://plant.example" ++ "/index.html") = Some installed /\
    onFetch "https://plant.example"
      (mkRequest "GET" ("https://plant.example" ++ "/index.html") "document")
      None
      (onActivate
         (fst (onInstall "https://plant.example"
                 (fun url => Some (mkResponse 200 "basic" url)) [])))
    = mkFetchResult (Some (Some installed)) false
        (onActivate
           (fst (onInstall "https://plant.example"
                   (fun url => Some (mkResponse 200 "basic" url)) []))).
Proof.
  apply (install_then_offline "https://plant.example" "/index.html"
           "document" (fun url => Some (mkResponse 200 "basic" url)) [] None).
  - intros url _. eexists. split; reflexivity.
  - unfold precachedPaths. simpl. tauto.
Defined.

End ServiceWorkerFacts.

(** ** The data type wizard *)

Section DataTypeWizardFacts.

Import JsObject DataTypeWizard.





Lemma setTexts_all (ids : list string) (writes : list (string * string)) :
  (forall id, In id (map fst writes) -> hasElement ids id = true) ->
  setTexts ids writes
  = (map (fun write => SetTextContent (fst write) (snd write)) writes, false).
Proof.
  induction writes as [|[id text] writes IH]; intros H; [reflexivity |].
  simpl. rewrite (H id (or_introl eq_refl)), IH; [reflexivity |].
  intros i Hi. apply H. now right.
Qed.

(** X18: Next from step 2, with a use case the table has and the six
    elements of the panel on the page, moves to step 3, writes the type,
    details, memory, range and precision of that entry, fills the usage
    list with its items and shows the success notification. *)
Theorem next_shows_recommendation (ids : list string) (w : Wizard)
    (rec : Recommendation) :
  own recommendations (keyOf (selectedUseCase w)) = Some rec ->
  (forall id, In id panelIds -> hasElement ids id = true) ->
  nextDataTypeStep ids (setDataTypeStep 2 w)
  = mkRun (setDataTypeStep 3 w)
      ([UpdateDataTypeStep 3;
        SetTextContent "recommendedType" (rec_type rec);
        SetTextContent "typeDetails" (rec_details rec);
        SetTextContent "memoryUsage" (rec_memory rec);
        SetTextContent "valueRange" (rec_range rec);
        SetTextContent "precisionLevel" (rec_precision rec);
        ClearChildren "usageRecommendations"] ++
       map (AppendListItem "usageRecommendations") (rec_usage rec) ++
       [Notify "Recommendation generated" "success"])%list
      false.
Proof.
  intros Hown Hids. unfold nextDataTypeStep. simpl.
  unfold generateRecommendation, lookup. simpl selectedUseCase.
  rewrite Hown, setTexts_all.
  - rewrite (Hids "usageRecommendations") by (simpl; tauto). reflexivity.
  - intros id Hin. apply Hids. simpl in Hin |- *. tauto.
Qed.

Lemma next_shows_recommendation_witness :
  nextDataTypeStep panelIds
    (setDataTypeStep 2 (mkWizard constructed (Some "digital-input")))
  = mkRun (setDataTypeStep 3 (mkWizard constructed (Some "digital-input")))
      ([UpdateDataTypeStep 3;
        SetTextContent "recommendedType" "BOOL";
        SetTextContent "typeDetails" "1-byte boolean";
        SetTextContent "memoryUsage" "1 byte per attribute";
        SetTextContent "valueRange" "True/False";
        SetTextContent "precisionLevel" "N/A";
        ClearChildren "usageRecommendations"] ++
       map (AppendListItem "usageRecommendations")
           ["Perfect for status and alarm signals";
            "Fast update performance";
            "Minimal memory usage"] ++
       [Notify "Recommendation generated" "success"])%list
      false.
Proof.
  apply (next_shows_recommendation panelIds
           (mkWizard constructed (Some "digital-input"))
           (mkRecommendation "BOOL" "1-byte boolean" "1 byte per attribute"
              "True/False" "N/A"
              ["Perfect for status and alarm signals";
               "Fast update performance";
               "Minimal memory usage"])).
  - reflexivity.
  - intros id Hin. simpl in Hin.
    repeat (destruct Hin as [<- | Hin]; [reflexivity |]). contradiction.
Defined.

(** X19: Next from step 2 with no use case selected, or with one the
    table does not know, moves to step 3 and does nothing else: no text
    is written and no notification is shown, whatever the page has. *)
Theorem next_without_use_case (ids : list string) (w : Wizard) :
  unknownUseCase (selectedUseCase w) ->
  nextDataTypeStep ids (setDataTypeStep 2 w)
  = mkRun (setDataTypeStep 3 w) [UpdateDataTypeStep 3] false.
Proof.
  unfold unknownUseCase. intros H. unfold nextDataTypeStep. simpl.
  unfold generateRecommendation. simpl selectedUseCase. now rewrite H.
Qed.

Lemma next_without_use_case_witness :
  nextDataTypeStep [] (setDataTypeStep 2 constructedWizard)
  = mkRun (setDataTypeStep 3 constructedWizard) [UpdateDataTypeStep 3] false.
Proof.
  apply (next_without_use_case [] constructedWizard). reflexivity.
Defined.

(** X20: Next from step 2 with a use case the table has, on a page
    without the element [recommendedType], ends in an error before
    anything is written or notified, and the wizard is at step 3 all the
    same. *)
Theorem next_throws_without_panel (ids : list string) (w : Wizard)
    (rec : Recommendation) :
  own recommendations (keyOf (selectedUseCase w)) = Some rec ->
  hasElement ids "recommendedType" = false ->
  nextDataTypeStep ids (setDataTypeStep 2 w)
  = mkRun (setDataTypeStep 3 w) [UpdateDataTypeStep 3] true.
Proof.
  intros Hown Hid. unfold nextDataTypeStep. simpl.
  unfold generateRecommendation, lookup. simpl selectedUseCase.
  rewrite Hown. simpl. now rewrite Hid.
Qed.

Lemma next_throws_without_panel_witness :
  nextDataTypeStep []
    (setDataTypeStep 2 (mkWizard constructed (Some "analog-input")))
  = mkRun (setDataTypeStep 3 (mkWizard constructed (Some "analog-input")))
      [UpdateDataTypeStep 3] true.
Proof.
  apply (next_throws_without_panel []
           (mkWizard constructed (Some "analog-input"))
           (mkRecommendation "REAL" "4-byte floating point"
              "4 bytes per attribute" (String "177"%char "3.4E38")
              "6-7 decimal digits"
              ["Ideal for process variable measurements";
               "Supports engineering units conversion";
               "Compatible with trending and alarming"])); reflexivity.
Defined.

End DataTypeWizardFacts.

(** ** The pre-built templates of the generator *)

Section GeneratorFacts.

Import JsObject Generator.

Lemma known_template (key : string) (template : GeneratorTemplate) :
  In (key, template) templates ->
  lookup templates key = Own template /\
  map filledRow (gt_attributes template)
  = map (fun attr => mkRow (Some (attr_name attr)) (Some (attr_type attr))
                           (attr_description attr))
        (gt_attributes template) /\
  collectRows (map filledRow (gt_attributes template))
  = gt_attributes template /\
  gt_attributes template <> [].
Proof.
  simpl. intros [E | [E | [E | []]]]; injection E as <- <-;
    (repeat split; discriminate).
Qed.

Lemma applyAttribute_fold (attrs : list Attribute) :
  forall app rows,
    fold_left applyAttribute attrs (app, rows)
    = (mkApp (currentSection app) (currentWizardStep app)
             (currentDataTypeStep app) (attributes app ++ attrs)%list
             (savedConfigs app),
       (rows ++ map filledRow attrs)%list).
Proof.
  induction attrs as [|attr attrs IH]; intros app rows.
  - simpl. rewrite !app_nil_r. now destruct app.
  - simpl fold_left. unfold applyAttribute at 2. simpl fst; simpl snd.
    rewrite IH. simpl. now rewrite <- !app_assoc.
Qed.

(** X21: [applyTemplate] with the name of one of the three templates, on
    a page that has the attribute list, shows no error; the list then
    holds one filled row per attribute of the template and nothing of
    what it held; what [collectTemplateData] collects afterwards is the
    attributes of the rows before the list, then those of the template,
    then those of the rows after it; the name field of the form is not
    written (the name of the template is not used); the notification
    names the template. *)
Theorem apply_then_collect (key : string) (template : GeneratorTemplate)
    (fields : Document) (page : GeneratorPage) (rows : list AttributeRow)
    (app : App) :
  In (key, template) templates ->
  attributesList page = Some rows ->
  threwError (applyTemplate key page app) = false /\
  attributesList (pageAfter (applyTemplate key page app))
  = Some (map filledRow (gt_attributes template)) /\
  td_attributes
    (collectTemplateData
       (pageDocument fields (pageAfter (applyTemplate key page app))))
  = (collectRows (rowsBefore page) ++ gt_attributes template ++
     collectRows (rowsAfter page))%list /\
  td_name
    (collectTemplateData
       (pageDocument fields (pageAfter (applyTemplate key page app))))
  = Spec.fieldOrEmpty (templateName fields) /\
  toastShown (applyTemplate key page app)
  = Some ("Applied " ++ key ++ " template", "info").
Proof.
  intros Hin Hlist.
  destruct (known_template key template Hin) as (Hl & _ & Hc & _).
  unfold applyTemplate. rewrite Hl, Hlist, applyAttribute_fold.
  simpl. rewrite !collectRows_app, Hc, orElse_empty. repeat split.
Qed.

Lemma apply_then_collect_witness :
  threwError
    (applyTemplate "pump" (mkGeneratorPage [] (Some [blankRow]) []) constructed)
  = false /\
  attributesList
    (pageAfter
       (applyTemplate "pump" (mkGeneratorPage [] (Some [blankRow]) [])
                      constructed))
  = Some (map filledRow
            (gt_attributes
               (mkGeneratorTemplate "PumpTemplate"
                  [mkAttribute "Flow" "AI" (Some "Flow rate");
                   mkAttribute "Pressure" "AI" (Some "Discharge pressure")]))) /\
  td_attributes
    (collectTemplateData
       (pageDocument emptyNameDocument
          (pageAfter
             (applyTemplate "pump" (mkGeneratorPage [] (Some [blankRow]) [])
                            constructed))))
  = (collectRows (rowsBefore (mkGeneratorPage [] (Some [blankRow]) [])) ++
     gt_attributes
       (mkGeneratorTemplate "PumpTemplate"
          [mkAttribute "Flow" "AI" (Some "Flow rate");
           mkAttribute "Pressure" "AI" (Some "Discharge pressure")]) ++
     collectRows (rowsAfter (mkGeneratorPage [] (Some [blankRow]) [])))%list /\
  td_name
    (collectTemplateData
       (pageDocument emptyNameDocument
          (pageAfter
             (applyTemplate "pump" (mkGeneratorPage [] (Some [blankRow]) [])
                            constructed))))
  = Spec.fieldOrEmpty (templateName emptyNameDocument) /\
  toastShown
    (applyTemplate "pump" (mkGeneratorPage [] (Some [blankRow]) []) constructed)
  = Some ("Applied " ++ "pump" ++ " template", "info").
Proof.
  apply (apply_then_collect "pump"
           (mkGeneratorTemplate "PumpTemplate"
              [mkAttribute "Flow" "AI" (Some "Flow rate");
               mkAttribute "Pressure" "AI" (Some "Discharge pressure")])
           emptyNameDocument (mkGeneratorPage [] (Some [blankRow]) [])
           [blankRow] constructed).
  - simpl. tauto.
  - reflexivity.
Defined.

(** X22: applying a template a second time leaves the rows of the list
    as the first time did, while [this.attributes], which nothing
    empties, then holds the attributes of the template twice after what
    it held. *)
Theorem apply_twice_accumulates (key : string) (template : GeneratorTemplate)
    (page : GeneratorPage) (rows : list AttributeRow) (app : App) :
  In (key, template) templates ->
  attributesList page = Some rows ->
  pageAfter (applyTemplate key (pageAfter (applyTemplate key page app))
                           (appAfter (applyTemplate key page app)))
  = pageAfter (applyTemplate key page app) /\
  attributes (appAfter (applyTemplate key page app))
  = (attributes app ++ gt_attributes template)%list /\
  attributes
    (appAfter (applyTemplate key (pageAfter (applyTemplate key page app))
                             (appAfter (applyTemplate key page app))))
  = (attributes app ++ gt_attributes template ++ gt_attributes template)%list.
Proof.
  intros Hin Hlist.
  destruct (known_template key template Hin) as (Hl & _ & _ & _).
  unfold applyTemplate. rewrite Hl, Hlist, applyAttribute_fold. simpl.
  rewrite applyAttribute_fold. simpl. now rewrite <- app_assoc.
Qed.

Lemma apply_twice_accumulates_witness :
  pageAfter
    (applyTemplate "valve"
       (pageAfter (applyTemplate "valve" (mkGeneratorPage [] (Some []) [])
                                 constructed))
       (appAfter (applyTemplate "valve" (mkGeneratorPage [] (Some []) [])
                                constructed)))
  = pageAfter (applyTemplate "valve" (mkGeneratorPage [] (Some []) [])
                             constructed) /\
  attributes
    (appAfter (applyTemplate "valve" (mkGeneratorPage [] (Some []) [])
                             constructed))
  = (attributes constructed ++
     gt_attributes
       (mkGeneratorTemplate "ValveTemplate"
          [mkAttribute "Position" "AI" (Some "Valve position");
           mkAttribute "Mode" "DI" (Some "Auto/Manual mode")]))%list /\
  attributes
    (appAfter
       (applyTemplate "valve"
          (pageAfter (applyTemplate "valve" (mkGeneratorPage [] (Some []) [])
                                    constructed))
          (appAfter (applyTemplate "valve" (mkGeneratorPage [] (Some []) [])
                                   constructed))))
  = (attributes constructed ++
     gt_attributes
       (mkGeneratorTemplate "ValveTemplate"
          [mkAttribute "Position" "AI" (Some "Valve position");
           mkAttribute "Mode" "DI" (Some "Auto/Manual mode")]) ++
     gt_attributes
       (mkGeneratorTemplate "ValveTemplate"
          [mkAttribute "Position" "AI" (Some "Valve position");
           mkAttribute "Mode" "DI" (Some "Auto/Manual mode")]))%list.
Proof.
  apply (apply_twice_accumulates "valve"
           (mkGeneratorTemplate "ValveTemplate"
              [mkAttribute "Position" "AI" (Some "Valve position");
               mkAttribute "Mode" "DI" (Some "Auto/Manual mode")])
           (mkGeneratorPage [] (Some []) []) [] constructed).
  - simpl. tauto.
  - reflexivity.
Defined.

(** X23: on a page without the attribute list, [applyTemplate] with the
    name of one of the three templates ends in an error after
    [this.attributes] got the first attribute of the template only; no
    row is written and no notification is shown. *)
Theorem apply_without_list_throws (key : string)
    (template : GeneratorTemplate) (page : GeneratorPage) (app : App) :
  In (key, template) templates ->
  attributesList page = None ->
  threwError (applyTemplate key page app) = true /\
  toastShown (applyTemplate key page app) = None /\
  pageAfter (applyTemplate key page app) = page /\
  attributes (appAfter (applyTemplate key page app))
  = (attributes app ++ firstn 1 (gt_attributes template))%list.
Proof.
  intros Hin Hlist.
  destruct (known_template key template Hin) as (Hl & _ & _ & Hne).
  unfold applyTemplate. rewrite Hl, Hlist.
  destruct (gt_attributes template) as [|attr attrs]; [now elim Hne |].
  repeat split.
Qed.

Lemma apply_without_list_throws_witness :
  threwError (applyTemplate "motor" (mkGeneratorPage [] None []) constructed)
  = true /\
  toastShown (applyTemplate "motor" (mkGeneratorPage [] None []) constructed)
  = None /\
  pageAfter (applyTemplate "motor" (mkGeneratorPage [] None []) constructed)
  = mkGeneratorPage [] None [] /\
  attributes
    (appAfter (applyTemplate "motor" (mkGeneratorPage [] None []) constructed))
  = (attributes constructed ++
     firstn 1
       (gt_attributes
          (mkGeneratorTemplate "MotorTemplate"
             [mkAttribute "RunningStatus" "DI" (Some "Motor running status");
              mkAttribute "Speed" "AI" (Some "Motor speed");
              mkAttribute "Current" "AI" (Some "Motor current")])))%list.
Proof.
  apply (apply_without_list_throws "motor"
           (mkGeneratorTemplate "MotorTemplate"
              [mkAttribute "RunningStatus" "DI" (Some "Motor running status");
               mkAttribute "Speed" "AI" (Some "Motor speed");
               mkAttribute "Current" "AI" (Some "Motor current")])
           (mkGeneratorPage [] None []) constructed).
  - simpl. tauto.
  - reflexivity.
Defined.

Lemma own_absent {A} (table : list (string * A)) (key : string) :
  ~ In key (map fst table) -> own table key = None.
Proof.
  induction table as [|[k v] table IH]; simpl; intros H; [reflexivity |].
  destruct (String.eqb_spec k key) as [E | _]; [elim H; now left |].
  apply IH. intros Hin. apply H. now right.
Qed.

(** X24: [applyTemplate] with a name that is neither one of the three
    templates nor a property every object inherits changes nothing and
    shows nothing. *)
Theorem apply_unknown_template (key : string) (page : GeneratorPage)
    (app : App) :
  ~ In key ["motor"; "valve"; "pump"] ->
  ~ In key inheritedNames ->
  applyTemplate key page app = mkApplied app page None false.
Proof.
  intros Hk Hi. unfold applyTemplate, lookup.
  rewrite (own_absent templates key Hk).
  destruct (existsb (String.eqb key) inheritedNames) eqn:E; [| reflexivity].
  apply existsb_exists in E as (name & Hin & E).
  apply String.eqb_eq in E. subst name. contradiction.
Qed.

Lemma apply_unknown_template_witness :
  applyTemplate "tank" (mkGeneratorPage [] (Some [blankRow]) []) constructed
  = mkApplied constructed (mkGeneratorPage [] (Some [blankRow]) []) None false.
Proof.
  apply (apply_unknown_template "tank"
           (mkGeneratorPage [] (Some [blankRow]) []) constructed).
  - simpl. intuition discriminate.
  - simpl. intuition discriminate.
Defined.

(** X25: a row added by [addAttributeRow] and left as it is gives no
    attribute: the form collects the same record as before the row was
    added. *)
Theorem added_row_not_collected :
  forall fields page,
    collectTemplateData (pageDocument fields (addAttributeRow page))
    = collectTemplateData (pageDocument fields page).
Proof.
  intros fields [before [rows |] rest]; [| reflexivity].
  unfold collectTemplateData, pageDocument, addAttributeRow. simpl.
  now rewrite !collectRows_app, app_nil_r.
Qed.

End GeneratorFacts.

(** ** Saving from the form *)

Lemma collectRows_none (rows : list AttributeRow) :
  (List.length (collectRows rows) =? 0)%nat
  = negb (existsb Spec.rowFilled rows).
Proof.
  induction rows as [|row rows IH]; [reflexivity |].
  simpl. rewrite collectRow_filled.
  destruct (Spec.rowFilled row); [reflexivity | exact IH].
Qed.

(** X26: [saveTemplate] accepts the form exactly when its name field is
    not empty and at least one row has both a name and a type: then the
    list of saved configurations gets the new configuration in front, and
    in every other case the application is left as it was. *)
Theorem save_accepts_named_filled_form :
  forall doc now stamp app,
    after (saveTemplate doc now stamp app)
    = if negb (Spec.fieldOrEmpty (templateName doc) =? EmptyString) &&
         existsb Spec.rowFilled (attributeRows doc)
      then setSavedConfigs
             (newConfig (collectTemplateData doc) now stamp ::
              savedConfigs app) app
      else app.
Proof.
  intros doc now stamp app. unfold saveTemplate.
  change (td_attributes (collectTemplateData doc))
    with (collectRows (attributeRows doc)).
  change (td_name (collectTemplateData doc))
    with (Js.orElse (templateName doc) EmptyString).
  rewrite collectRows_none, orElse_empty, truthy_eqb, negb_involutive.
  destruct (Spec.fieldOrEmpty (templateName doc) =? EmptyString);
    [reflexivity |].
  now destruct (existsb Spec.rowFilled (attributeRows doc)).
Qed.
